(** * ARSC Voting App: the vote and user routes over the storage object

    A shallow embedding of [server/routes.ts] (the routes on users, votes and
    the statistics report), of [server/storage.ts] (the [storage] object the
    routes call) and of the tables of [shared/schema.ts].

    - ids are JavaScript numbers holding integers: [Z];
    - array lengths and vote counts are [nat];
    - percentages are JavaScript numbers, IEEE 754 binary64: primitive
      [float], with the operations of [PrimFloat];
    - a nullable column is an [option];
    - a route is a function from the database behind [db], the session of
      the request and the request's data to an [Outcome]: the response, the
      session afterwards and the database afterwards. *)

From Stdlib Require Import ZArith List String Bool Lia.
From Stdlib Require Import Floats Uint63.
Import ListNotations.

Set Implicit Arguments.

(* ------------------------------------------------------------------ *)
(** ** Rows of [shared/schema.ts] *)

Module User.
(** [users]: id, name, reference_number (unique), is_admin, has_voted,
    school_level, grade_level. *)
Record t := mk {
  id : Z;
  name : string;
  referenceNumber : string;
  isAdmin : bool;
  hasVoted : bool;
  schoolLevel : option string;
  gradeLevel : option Z
}.
End User.

Module InsertUser.
(** [insertUserSchema]: name, referenceNumber, isAdmin, schoolLevel,
    gradeLevel; the last three may be left out. *)
Record t := mk {
  name : string;
  referenceNumber : string;
  isAdmin : option bool;
  schoolLevel : option string;
  gradeLevel : option Z
}.
End InsertUser.

Module PartialUser.
(** [insertUserSchema.partial()]: every property may be left out. *)
Record t := mk {
  name : option string;
  referenceNumber : option string;
  isAdmin : option bool;
  schoolLevel : option string;
  gradeLevel : option Z
}.
End PartialUser.

Module Position.
Record t := mk {
  id : Z;
  name : string;
  maxVotes : Z;
  schoolLevels : list string;
  displayOrder : Z
}.
End Position.

Module Candidate.
Record t := mk {
  id : Z;
  name : string;
  photo : option string;
  positionId : Z;
  partylistId : Z;
  schoolLevels : list string;
  gradeLevels : list Z
}.
End Candidate.

Module InsertVote.
(** [insertVoteSchema]: userId, candidateId, positionId. *)
Record t := mk {
  userId : Z;
  candidateId : Z;
  positionId : Z
}.
End InsertVote.

Module Vote.
(** A row of [votes]. [id] is [None] in the object the shipped
    [storage.createVote] hands back, which is its argument and carries no
    id. The timestamp column is read by no route and is left out. *)
Record t := mk {
  id : option Z;
  userId : Z;
  candidateId : Z;
  positionId : Z
}.
End Vote.

Module VoteCount.
(** An element of what [storage.getVoteCounts] returns. *)
Record t := mk {
  positionId : Z;
  candidateId : Z;
  count : nat
}.
End VoteCount.

Module SessionUser.
(** [req.session.user], as the login route fills it. *)
Record t := mk {
  id : Z;
  name : string;
  isAdmin : bool;
  hasVoted : bool;
  schoolLevel : option string;
  gradeLevel : option Z
}.

(** [{ ...user, hasVoted: true }] *)
Definition markVoted (u : t) : t :=
  mk (id u) (name u) (isAdmin u) true (schoolLevel u) (gradeLevel u).
End SessionUser.

(** The database the [db] handle of [storage.ts] is connected to. *)
Record Db := mkDb {
  users : list User.t;
  positions : list Position.t;
  candidates : list Candidate.t;
  votes : list Vote.t
}.

(* ------------------------------------------------------------------ *)
(** ** The storage object *)

(** The methods of [storage] that the user, vote and statistics routes
    call. A read leaves the database alone; a write returns the new one. *)
Record Storage := mkStorage {
  getUserByReferenceNumber : Db -> string -> option User.t;
  getUser : Db -> Z -> option User.t;
  createUser : Db -> InsertUser.t -> User.t * Db;
  updateUser : Db -> Z -> PartialUser.t -> option User.t * Db;
  getAllUsers : Db -> list User.t;
  deleteUser : Db -> Z -> bool * Db;
  resetUserVote : Db -> Z -> option User.t * Db;
  getAllPositions : Db -> list Position.t;
  getPosition : Db -> Z -> option Position.t;
  getAllCandidates : Db -> list Candidate.t;
  getCandidate : Db -> Z -> option Candidate.t;
  createVote : Db -> InsertVote.t -> Vote.t * Db;
  getVoteCounts : Db -> list VoteCount.t
}.

(** [storage] of [server/storage.ts], method by method. None of them issues
    a query: [db] is neither read nor written. *)
Definition storage : Storage := {|
  getUserByReferenceNumber := fun _ referenceNumber =>
    if String.eqb referenceNumber "ARSC2025"
    then Some (User.mk 1 "admin" "ARSC2025" true false None None)
    else None;
  getUser := fun _ _ => None;
  createUser := fun db data =>
    (User.mk 1 (InsertUser.name data) (InsertUser.referenceNumber data)
       false false (InsertUser.schoolLevel data) (InsertUser.gradeLevel data),
     db);
  updateUser := fun db _ _ => (None, db);
  getAllUsers := fun _ => [];
  deleteUser := fun db _ => (true, db);
  resetUserVote := fun db _ => (None, db);
  getAllPositions := fun _ => [];
  getPosition := fun _ _ => None;
  getAllCandidates := fun _ => [];
  getCandidate := fun _ _ => None;
  createVote := fun db data =>
    (Vote.mk None (InsertVote.userId data) (InsertVote.candidateId data)
       (InsertVote.positionId data),
     db);
  getVoteCounts := fun _ => []
|}.

(* ------------------------------------------------------------------ *)
(** ** Requests and responses *)

(** A property of a JSON request body, as a zod schema meets it. *)
Inductive field (A : Type) : Type :=
| missing : field A              (* the property is not there *)
| illtyped : field A             (* it is there, with a value of another type *)
| present : A -> field A.
Arguments missing {A}.
Arguments illtyped {A}.
Arguments present {A} _.

(** A required property: [z.string()], [z.number()]. *)
Definition required {A} (f : field A) : option A :=
  match f with
  | present a => Some a
  | _ => None
  end.

(** An optional one: leaving it out is fine, a wrong type is not. *)
Definition optional {A} (f : field A) : option (option A) :=
  match f with
  | missing => Some None
  | present a => Some (Some a)
  | illtyped => None
  end.

(** The range [createInsertSchema] gives the schema of an [integer] or
    [serial] column: a 32-bit signed integer. *)
Definition inInt32 (n : Z) : bool :=
  ((-2147483648 <=? n) && (n <=? 2147483647))%Z.

(** An optional property of an [integer] column. *)
Definition optionalInt32 (f : field Z) : option (option Z) :=
  match f with
  | missing => Some None
  | present n => if inInt32 n then Some (Some n) else None
  | illtyped => None
  end.

Module LoginBody.
Record t := mk { name : field string; referenceNumber : field string }.
End LoginBody.

Module Login.
Record t := mk { name : string; referenceNumber : string }.
End Login.

Module UserBody.
Record t := mk {
  name : field string;
  referenceNumber : field string;
  isAdmin : field bool;
  schoolLevel : field string;
  gradeLevel : field Z
}.
End UserBody.

Module VoteBody.
(** [req.body] of a vote submission. Its two properties are taken at the
    type [storage.getPosition] and [storage.getCandidate] declare for
    them, [number], holding an integer of any size; a body that carries
    something else there is outside this type. *)
Record t := mk { candidateId : Z; positionId : Z }.
End VoteBody.

(** [z.string().min(1, ...)] *)
Definition nonEmpty (s : string) : option string :=
  match s with
  | EmptyString => None
  | _ => Some s
  end.

(** [loginSchema.parse]; [None] stands for the [ZodError] it throws. *)
Definition loginSchema_parse (body : LoginBody.t) : option Login.t :=
  match required (LoginBody.name body), required (LoginBody.referenceNumber body) with
  | Some n, Some r =>
      match nonEmpty n, nonEmpty r with
      | Some n', Some r' => Some (Login.mk n' r')
      | _, _ => None
      end
  | _, _ => None
  end.

(** [insertUserSchema.parse]; [None] stands for the [ZodError] it throws. *)
Definition insertUserSchema_parse (body : UserBody.t) : option InsertUser.t :=
  match required (UserBody.name body), required (UserBody.referenceNumber body),
        optional (UserBody.isAdmin body), optional (UserBody.schoolLevel body),
        optionalInt32 (UserBody.gradeLevel body) with
  | Some n, Some r, Some a, Some s, Some g => Some (InsertUser.mk n r a s g)
  | _, _, _, _, _ => None
  end.

(** [insertUserSchema.partial().parse] *)
Definition insertUserSchema_partial_parse (body : UserBody.t) : option PartialUser.t :=
  match optional (UserBody.name body), optional (UserBody.referenceNumber body),
        optional (UserBody.isAdmin body), optional (UserBody.schoolLevel body),
        optionalInt32 (UserBody.gradeLevel body) with
  | Some n, Some r, Some a, Some s, Some g => Some (PartialUser.mk n r a s g)
  | _, _, _, _, _ => None
  end.

(** [z.array(insertUserSchema).parse]: every element has to pass. *)
Fixpoint insertUserSchema_array_parse (bodies : list UserBody.t) : option (list InsertUser.t) :=
  match bodies with
  | [] => Some []
  | body :: bodies' =>
      match insertUserSchema_parse body, insertUserSchema_array_parse bodies' with
      | Some data, Some datas => Some (data :: datas)
      | _, _ => None
      end
  end.

(** [insertVoteSchema.parse] on three integers: the three columns are
    [integer] columns, so each has to lie in the 32-bit range; [None] stands
    for the [ZodError] it throws. *)
Definition insertVoteSchema_parse (userId candidateId positionId : Z) : option InsertVote.t :=
  if inInt32 userId && inInt32 candidateId && inInt32 positionId
  then Some (InsertVote.mk userId candidateId positionId)
  else None.

(** [parseInt(req.params.id)]: the path segment is given by what [parseInt]
    makes of it, [None] for [NaN]. *)
Definition IdParam := option Z.

(* ------------------------------------------------------------------ *)
(** ** The statistics report of [GET /api/votes/stats] *)

(** A count or an array length as a JavaScript number. Exact below 2^53,
    and arrays are shorter than that. *)
Definition jsnum (n : nat) : float :=
  PrimFloat.of_uint63 (Uint63.of_Z (Z.of_nat n)).

Module Summary.
Record t := mk {
  totalStudents : nat;
  votedStudents : nat;
  participationRate : float
}.
End Summary.

Module PositionVotes.
Record t := mk {
  positionId : Z;
  positionName : string;
  votes : nat;
  percentage : float
}.
End PositionVotes.

Module SchoolLevelVotes.
Record t := mk {
  schoolLevel : string;
  totalStudents : nat;
  votedStudents : nat;
  percentage : float
}.
End SchoolLevelVotes.

Module CandidateVotes.
Record t := mk {
  candidateId : Z;
  candidateName : string;
  votes : nat;
  percentage : float
}.
End CandidateVotes.

Module PositionCandidates.
Record t := mk {
  positionId : Z;
  positionName : string;
  candidates : list CandidateVotes.t
}.
End PositionCandidates.

Module Stats.
Record t := mk {
  summary : Summary.t;
  votesByPosition : list PositionVotes.t;
  votesBySchoolLevel : list SchoolLevelVotes.t;
  votesByCandidateAndPosition : list PositionCandidates.t
}.
End Stats.

(** [u.schoolLevel === level], the left side being a string or [null]. *)
Definition isLevel (l : option string) (level : string) : bool :=
  match l with
  | Some x => String.eqb x level
  | None => false
  end.

Section VoteStats.

(** What the route has read from [storage] when it starts to count. *)
Variable voteCounts : list VoteCount.t.
Variable positions : list Position.t.
Variable users : list User.t.
Variable candidates : list Candidate.t.

Definition totalStudents : nat :=
  List.length (filter (fun u => negb (User.isAdmin u)) users).

Definition votedStudents : nat :=
  List.length (filter (fun u => negb (User.isAdmin u) && User.hasVoted u) users).

Definition participationRate : float :=
  if (0 <? totalStudents)%nat
  then (jsnum votedStudents / jsnum totalStudents * 100)%float
  else 0%float.

(** Calculate vote distribution by position *)
Definition votesByPosition : list PositionVotes.t :=
  map (fun position =>
         let positionVotes :=
           fold_left (fun sum vc => (sum + VoteCount.count vc)%nat)
             (filter (fun vc => (VoteCount.positionId vc =? Position.id position)%Z)
                voteCounts)
             0%nat in
         PositionVotes.mk (Position.id position) (Position.name position)
           positionVotes
           (if (0 <? totalStudents)%nat
            then (jsnum positionVotes / jsnum totalStudents * 100)%float
            else 0%float))
      positions.

Definition schoolLevels : list string :=
  ["elementary"; "juniorHigh"; "seniorHigh"]%string.

(** Calculate vote distribution by school level *)
Definition votesBySchoolLevel : list SchoolLevelVotes.t :=
  map (fun level =>
         let levelUsers :=
           filter (fun u => negb (User.isAdmin u) && isLevel (User.schoolLevel u) level)
             users in
         let levelVotedUsers := filter (fun u => User.hasVoted u) levelUsers in
         SchoolLevelVotes.mk level (List.length levelUsers) (List.length levelVotedUsers)
           (if (0 <? List.length levelUsers)%nat
            then (jsnum (List.length levelVotedUsers) / jsnum (List.length levelUsers) * 100)%float
            else 0%float))
      schoolLevels.

(** [voteCounts.find(vc => vc.positionId === position.id &&
    vc.candidateId === candidate.id)?.count || 0] *)
Definition voteCount (position : Position.t) (candidate : Candidate.t) : nat :=
  match find (fun vc => (VoteCount.positionId vc =? Position.id position)%Z
                        && (VoteCount.candidateId vc =? Candidate.id candidate)%Z)
          voteCounts with
  | Some vc => VoteCount.count vc
  | None => 0%nat
  end.

(** Calculate vote distribution by candidate for each position *)
Definition votesByCandidateAndPosition : list PositionCandidates.t :=
  map (fun position =>
         let positionCandidates :=
           filter (fun c => (Candidate.positionId c =? Position.id position)%Z)
             candidates in
         let candidateResults :=
           map (fun candidate =>
                  CandidateVotes.mk (Candidate.id candidate) (Candidate.name candidate)
                    (voteCount position candidate)
                    (if (0 <? totalStudents)%nat
                     then (jsnum (voteCount position candidate) / jsnum totalStudents * 100)%float
                     else 0%float))
               positionCandidates in
         PositionCandidates.mk (Position.id position) (Position.name position)
           candidateResults)
      positions.

(** The object the route sends. *)
Definition voteStats : Stats.t :=
  Stats.mk (Summary.mk totalStudents votedStudents participationRate)
    votesByPosition votesBySchoolLevel votesByCandidateAndPosition.

End VoteStats.

(** An element of the answer of the bulk route. *)
Inductive BulkResult :=
| BulkExists (referenceNumber : string)      (* success: false, with the message *)
| BulkCreated (id : Z) (name : string) (referenceNumber : string).

(** What a route sends with [res.json], [res.status(n).json] or
    [res.status(204).end()]. *)
Inductive Json :=
| JMessage (message : string)        (* { message } *)
| JZodError                          (* { message: fromZodError(error).message } *)
| JSession (user : SessionUser.t)
| JUser (user : User.t)              (* the seven properties of a user *)
| JBulk (results : list BulkResult)
| JVote (vote : Vote.t)
| JStats (stats : Stats.t)
| JNoContent.

Record Response := mkResponse { status : Z; body : Json }.

Record Outcome := mkOutcome {
  response : Response;
  session : option SessionUser.t;    (* req.session.user when the route returns *)
  db : Db
}.

(** [return res.status(n).json({ message })]: nothing else changes. *)
Definition reply (n : Z) (message : string) (s : option SessionUser.t) (d : Db) : Outcome :=
  mkOutcome (mkResponse n (JMessage message)) s d.

(** [!user || !user.isAdmin] *)
Definition notAdmin (s : option SessionUser.t) : bool :=
  match s with
  | None => true
  | Some user => negb (SessionUser.isAdmin user)
  end.

(* ------------------------------------------------------------------ *)
(** ** The routes of [server/routes.ts]

    Written over any [storage] object, as [routes.ts] is: it only calls the
    methods. The methods are functions here: every storage promise resolves.
    A promise that rejects, which the [catch] of a route answers with 500
    "Internal server error", is outside the model, and what is left for the
    [catch] is the [ZodError] of a [parse], answered with 400. *)

Section Routes.

Variable S : Storage.

(** [app.post("/api/auth/login", ...)] *)
Definition post_api_auth_login (d : Db) (s : option SessionUser.t) (reqBody : LoginBody.t) : Outcome :=
  match loginSchema_parse reqBody with
  | None => mkOutcome (mkResponse 400 JZodError) s d
  | Some data =>
      match getUserByReferenceNumber S d (Login.referenceNumber data) with
      | None => reply 401 "Invalid credentials" s d
      | Some user =>
          if negb (String.eqb (User.name user) (Login.name data))
          then reply 401 "Invalid credentials" s d
          else
            let su := SessionUser.mk (User.id user) (User.name user) (User.isAdmin user)
                        (User.hasVoted user) (User.schoolLevel user) (User.gradeLevel user) in
            mkOutcome (mkResponse 200 (JSession su)) (Some su) d
      end
  end.

(** [app.post("/api/users", ...)] *)
Definition post_api_users (d : Db) (s : option SessionUser.t) (reqBody : UserBody.t) : Outcome :=
  if notAdmin s then reply 403 "Unauthorized" s d
  else
    match insertUserSchema_parse reqBody with
    | None => mkOutcome (mkResponse 400 JZodError) s d
    | Some data =>
        (* Check if user with same reference number already exists *)
        match getUserByReferenceNumber S d (InsertUser.referenceNumber data) with
        | Some existingUser =>
            reply 409 "User with this reference number already exists" s d
        | None =>
            let (newUser, d') := createUser S d data in
            mkOutcome (mkResponse 201 (JUser newUser)) s d'
        end
    end.

(** The loop of the bulk route: [results] grows at its end. *)
Fixpoint bulkLoop (d : Db) (usersData : list InsertUser.t) (results : list BulkResult)
  : list BulkResult * Db :=
  match usersData with
  | [] => (results, d)
  | userData :: rest =>
      (* Skip if user with same reference number exists *)
      match getUserByReferenceNumber S d (InsertUser.referenceNumber userData) with
      | Some existingUser =>
          bulkLoop d rest (results ++ [BulkExists (InsertUser.referenceNumber userData)])
      | None =>
          let (newUser, d') := createUser S d userData in
          bulkLoop d' rest
            (results ++ [BulkCreated (User.id newUser) (User.name newUser)
                           (User.referenceNumber newUser)])
      end
  end.

(** [app.post("/api/users/bulk", ...)]; the body is an array. *)
Definition post_api_users_bulk (d : Db) (s : option SessionUser.t)
    (reqBody : list UserBody.t) : Outcome :=
  if notAdmin s then reply 403 "Unauthorized" s d
  else
    match insertUserSchema_array_parse reqBody with
    | None => mkOutcome (mkResponse 400 JZodError) s d
    | Some usersData =>
        let (results, d') := bulkLoop d usersData [] in
        mkOutcome (mkResponse 201 (JBulk results)) s d'
    end.

(** [if (data.referenceNumber)]: there and not the empty string. *)
Definition truthy (r : option string) : option string :=
  match r with
  | Some EmptyString => None
  | _ => r
  end.

(** [app.put("/api/users/:id", ...)] *)
Definition put_api_users (d : Db) (s : option SessionUser.t) (param : IdParam)
    (reqBody : UserBody.t) : Outcome :=
  if notAdmin s then reply 403 "Unauthorized" s d
  else
    match param with
    | None => reply 400 "Invalid ID" s d
    | Some id =>
        match insertUserSchema_partial_parse reqBody with
        | None => mkOutcome (mkResponse 400 JZodError) s d
        | Some data =>
            (* If reference number is being updated, check for duplicates *)
            let taken :=
              match truthy (PartialUser.referenceNumber data) with
              | Some referenceNumber =>
                  match getUserByReferenceNumber S d referenceNumber with
                  | Some existingUser => negb (User.id existingUser =? id)%Z
                  | None => false
                  end
              | None => false
              end in
            if taken then reply 409 "User with this reference number already exists" s d
            else
              let (updatedUser, d') := updateUser S d id data in
              match updatedUser with
              | None => reply 404 "User not found" s d'
              | Some u => mkOutcome (mkResponse 200 (JUser u)) s d'
              end
        end
    end.

(** [app.delete("/api/users/:id", ...)] *)
Definition delete_api_users (d : Db) (s : option SessionUser.t) (param : IdParam) : Outcome :=
  match s with
  | None => reply 403 "Unauthorized" s d
  | Some user =>
      if negb (SessionUser.isAdmin user) then reply 403 "Unauthorized" s d
      else
        match param with
        | None => reply 400 "Invalid ID" s d
        | Some id =>
            (* Don't allow deleting yourself *)
            if (id =? SessionUser.id user)%Z
            then reply 400 "Cannot delete your own account" s d
            else
              let (success, d') := deleteUser S d id in
              if negb success then reply 404 "User not found" s d'
              else mkOutcome (mkResponse 204 JNoContent) s d'
        end
  end.

(** [app.post("/api/users/:id/reset-vote", ...)] *)
Definition post_api_users_reset_vote (d : Db) (s : option SessionUser.t) (param : IdParam) : Outcome :=
  if notAdmin s then reply 403 "Unauthorized" s d
  else
    match param with
    | None => reply 400 "Invalid ID" s d
    | Some id =>
        let (updatedUser, d') := resetUserVote S d id in
        match updatedUser with
        | None => reply 404 "User not found" s d'
        | Some u => mkOutcome (mkResponse 200 (JUser u)) s d'
        end
    end.

(** [app.post("/api/votes", ...)] *)
Definition post_api_votes (d : Db) (s : option SessionUser.t) (reqBody : VoteBody.t) : Outcome :=
  match s with
  | None => reply 401 "Not authenticated" s d
  | Some user =>
      (* Get the user to check if they've already voted *)
      match getUser S d (SessionUser.id user) with
      | None => reply 404 "User not found" s d
      | Some userRecord =>
          (* Make sure position exists *)
          match getPosition S d (VoteBody.positionId reqBody) with
          | None => reply 404 "Position not found" s d
          | Some position =>
              (* Make sure candidate exists *)
              match getCandidate S d (VoteBody.candidateId reqBody) with
              | None => reply 404 "Candidate not found" s d
              | Some candidate =>
                  (* Make sure candidate is for the correct position *)
                  if negb (Candidate.positionId candidate =? Position.id position)%Z
                  then reply 400 "Candidate is not for this position" s d
                  else
                    (* Create vote *)
                    match insertVoteSchema_parse (SessionUser.id user)
                            (VoteBody.candidateId reqBody) (VoteBody.positionId reqBody) with
                    | None => mkOutcome (mkResponse 400 JZodError) s d
                    | Some voteData =>
                        let (vote, d') := createVote S d voteData in
                        (* Update session *)
                        mkOutcome (mkResponse 201 (JVote vote))
                          (Some (SessionUser.markVoted user)) d'
                    end
              end
          end
      end
  end.

(** [app.get("/api/votes/stats", ...)] *)
Definition get_api_votes_stats (d : Db) (s : option SessionUser.t) : Outcome :=
  if notAdmin s then reply 403 "Unauthorized" s d
  else
    let voteCounts := getVoteCounts S d in
    let positions := getAllPositions S d in
    let users := getAllUsers S d in
    let candidates := getAllCandidates S d in
    mkOutcome (mkResponse 200 (JStats (voteStats voteCounts positions users candidates))) s d.

End Routes.

(* ------------------------------------------------------------------ *)
(** ** The server as a transition system *)

(** The requests to the routes above. *)
Inductive Request :=
| Login (reqBody : LoginBody.t)
| CreateUser (reqBody : UserBody.t)
| CreateUsers (reqBody : list UserBody.t)
| UpdateUser (param : IdParam) (reqBody : UserBody.t)
| DeleteUser (param : IdParam)
| ResetVote (param : IdParam)
| SubmitVote (reqBody : VoteBody.t)
| GetStats.

Definition handle (S : Storage) (d : Db) (s : option SessionUser.t) (r : Request) : Outcome :=
  match r with
  | Login reqBody => post_api_auth_login S d s reqBody
  | CreateUser reqBody => post_api_users S d s reqBody
  | CreateUsers reqBody => post_api_users_bulk S d s reqBody
  | UpdateUser param reqBody => put_api_users S d s param reqBody
  | DeleteUser param => delete_api_users S d s param
  | ResetVote param => post_api_users_reset_vote S d s param
  | SubmitVote reqBody => post_api_votes S d s reqBody
  | GetStats => get_api_votes_stats S d s
  end.

(** The databases the server can bring about from [d0]: any request, sent
    with any session at all (so also with every session a login can set). *)
Inductive reachable (S : Storage) (d0 : Db) : Db -> Prop :=
| reachable_start : reachable S d0 d0
| reachable_step (d : Db) (s : option SessionUser.t) (r : Request) :
    reachable S d0 d -> reachable S d0 (db (handle S d s r)).

(** One client sending requests one after the other, its session carried
    along. *)
Fixpoint serve (S : Storage) (d : Db) (s : option SessionUser.t) (rs : list Request)
  : list Response * option SessionUser.t * Db :=
  match rs with
  | [] => ([], s, d)
  | r :: rs' =>
      let o := handle S d s r in
      let '(resps, s', d') := serve S (db o) (session o) rs' in
      (response o :: resps, s', d')
  end.

(** The key the spec wants to be unique among votes. *)
Definition voteKey (v : Vote.t) : Z * Z := (Vote.userId v, Vote.positionId v).

(* ------------------------------------------------------------------ *)
(** ** What the spec asks for, in its own words *)

(** "count of ..." *)
Fixpoint countIf {A : Type} (p : A -> bool) (l : list A) : nat :=
  match l with
  | [] => 0
  | x :: l' => if p x then S (countIf p l') else countIf p l'
  end.

(** "[totalStudents] = count of non-admin users." *)
Definition spec_totalStudents (us : list User.t) : nat :=
  countIf (fun u => negb (User.isAdmin u)) us.

(** "[votedStudents] = count of non-admin users with has-voted = true." *)
Definition spec_votedStudents (us : list User.t) : nat :=
  countIf (fun u => User.hasVoted u) (filter (fun u => negb (User.isAdmin u)) us).

(** [xs.includes(x)] for a nullable [x]. *)
Definition includes {A : Type} (eqb : A -> A -> bool) (xs : list A) (x : option A) : bool :=
  match x with
  | Some a => existsb (eqb a) xs
  | None => false
  end.

(** The re-validation section 9 of the spec calls for and the vote route
    does not make: [candidate.schoolLevels.includes(user.schoolLevel)],
    [candidate.gradeLevels.includes(user.gradeLevel)] and
    [position.schoolLevels.includes(user.schoolLevel)]. *)
Definition eligible (user : User.t) (position : Position.t) (candidate : Candidate.t) : bool :=
  includes String.eqb (Candidate.schoolLevels candidate) (User.schoolLevel user)
  && includes Z.eqb (Candidate.gradeLevels candidate) (User.gradeLevel user)
  && includes String.eqb (Position.schoolLevels position) (User.schoolLevel user).

(* ------------------------------------------------------------------ *)
(** ** Stores to run the routes against

    [storage] as shipped finds no user by id, no position and no candidate,
    so the routes never get past their first lookup with it. Two more
    storage objects are used below as inputs of the theorems that hold for
    every storage object. Neither is code of the repository. *)

(** The next value of a [serial] column. *)
Definition nextId {A : Type} (id : A -> Z) (rows : list A) : Z :=
  (1 + fold_right Z.max 0 (map id rows))%Z.

Definition setHasVoted (b : bool) (u : User.t) : User.t :=
  User.mk (User.id u) (User.name u) (User.referenceNumber u) (User.isAdmin u) b
    (User.schoolLevel u) (User.gradeLevel u).

(** One more vote for a candidate of a position, in a list of counts. *)
Fixpoint tally (positionId candidateId : Z) (acc : list VoteCount.t) : list VoteCount.t :=
  match acc with
  | [] => [VoteCount.mk positionId candidateId 1]
  | vc :: acc' =>
      if ((VoteCount.positionId vc =? positionId) && (VoteCount.candidateId vc =? candidateId))%Z
      then VoteCount.mk positionId candidateId (S (VoteCount.count vc)) :: acc'
      else vc :: tally positionId candidateId acc'
  end.

(** A storage object whose methods run, on the tables of the schema, the
    query each name stands for: a lookup by key, an insert with the next id
    and the column defaults, a delete, a count grouped by position and
    candidate. The [votes] table has no constraint beyond its primary key,
    as in [shared/schema.ts]. *)
Definition tableStorage : Storage := {|
  getUserByReferenceNumber := fun d referenceNumber =>
    find (fun u => String.eqb (User.referenceNumber u) referenceNumber) (users d);
  getUser := fun d id => find (fun u => (User.id u =? id)%Z) (users d);
  createUser := fun d data =>
    let u := User.mk (nextId User.id (users d)) (InsertUser.name data)
               (InsertUser.referenceNumber data)
               (match InsertUser.isAdmin data with Some a => a | None => false end)
               false (InsertUser.schoolLevel data) (InsertUser.gradeLevel data) in
    (u, mkDb (users d ++ [u]) (positions d) (candidates d) (votes d));
  updateUser := fun d id data =>
    match find (fun u => (User.id u =? id)%Z) (users d) with
    | None => (None, d)
    | Some u =>
        let u' := User.mk (User.id u)
                    (match PartialUser.name data with Some n => n | None => User.name u end)
                    (match PartialUser.referenceNumber data with
                     | Some r => r
                     | None => User.referenceNumber u
                     end)
                    (match PartialUser.isAdmin data with Some a => a | None => User.isAdmin u end)
                    (User.hasVoted u)
                    (match PartialUser.schoolLevel data with
                     | Some l => Some l
                     | None => User.schoolLevel u
                     end)
                    (match PartialUser.gradeLevel data with
                     | Some g => Some g
                     | None => User.gradeLevel u
                     end) in
        (Some u',
         mkDb (map (fun x => if (User.id x =? id)%Z then u' else x) (users d))
           (positions d) (candidates d) (votes d))
    end;
  getAllUsers := fun d => users d;
  deleteUser := fun d id =>
    (existsb (fun u => (User.id u =? id)%Z) (users d),
     mkDb (filter (fun u => negb (User.id u =? id)%Z) (users d))
       (positions d) (candidates d) (votes d));
  resetUserVote := fun d id =>
    match find (fun u => (User.id u =? id)%Z) (users d) with
    | None => (None, d)
    | Some u =>
        (Some (setHasVoted false u),
         mkDb (map (fun x => if (User.id x =? id)%Z then setHasVoted false x else x) (users d))
           (positions d) (candidates d)
           (filter (fun v => negb (Vote.userId v =? id)%Z) (votes d)))
    end;
  getAllPositions := fun d => positions d;
  getPosition := fun d id => find (fun p => (Position.id p =? id)%Z) (positions d);
  getAllCandidates := fun d => candidates d;
  getCandidate := fun d id => find (fun c => (Candidate.id c =? id)%Z) (candidates d);
  createVote := fun d data =>
    let v := Vote.mk
               (Some (nextId (fun v => match Vote.id v with Some i => i | None => 0%Z end)
                        (votes d)))
               (InsertVote.userId data) (InsertVote.candidateId data)
               (InsertVote.positionId data) in
    (v, mkDb (users d) (positions d) (candidates d) (votes d ++ [v]));
  getVoteCounts := fun d =>
    fold_left (fun acc v => tally (Vote.positionId v) (Vote.candidateId v) acc) (votes d) []
|}.

(** [storage] as shipped, except that its three lookups of the vote route
    read the tables. Every method that writes is the shipped one. *)
Definition storageWithLookups : Storage := {|
  getUserByReferenceNumber := getUserByReferenceNumber storage;
  getUser := getUser tableStorage;
  createUser := createUser storage;
  updateUser := updateUser storage;
  getAllUsers := getAllUsers storage;
  deleteUser := deleteUser storage;
  resetUserVote := resetUserVote storage;
  getAllPositions := getAllPositions storage;
  getPosition := getPosition tableStorage;
  getAllCandidates := getAllCandidates storage;
  getCandidate := getCandidate tableStorage;
  createVote := createVote storage;
  getVoteCounts := getVoteCounts storage
|}.

(** *** A small election *)

Definition admin : User.t := User.mk 1 "admin" "ARSC2025" true false None None.
Definition pupil : User.t := User.mk 2 "Ana" "R1" false false (Some "elementary"%string) (Some 4%Z).

(** One office for the elementary level with two candidates, one for the
    senior high level with one. *)
Definition president : Position.t := Position.mk 1 "President" 1 ["elementary"%string] 1.
Definition prefect : Position.t := Position.mk 2 "Prefect" 1 ["seniorHigh"%string] 2.

Definition candidateA : Candidate.t :=
  Candidate.mk 1 "A" None 1 1 ["elementary"%string] [3; 4; 5; 6]%Z.
Definition candidateB : Candidate.t :=
  Candidate.mk 2 "B" None 1 2 ["elementary"%string] [3; 4; 5; 6]%Z.
Definition candidateC : Candidate.t :=
  Candidate.mk 3 "C" None 2 1 ["seniorHigh"%string] [11; 12]%Z.

Definition emptyDb : Db := mkDb [] [] [] [].

Definition election : Db :=
  mkDb [admin; pupil] [president; prefect] [candidateA; candidateB; candidateC] [].

(** The election once the pupil has voted for A as president. *)
Definition electionAfterVote : Db :=
  mkDb [admin; setHasVoted true pupil] [president; prefect]
    [candidateA; candidateB; candidateC] [Vote.mk (Some 1%Z) 2 1 1].

(** The sessions a login gives the admin and the pupil, and one whose user
    is in no table. *)
Definition adminSession : SessionUser.t := SessionUser.mk 1 "admin" true false None None.
Definition pupilSession : SessionUser.t :=
  SessionUser.mk 2 "Ana" false false (Some "elementary"%string) (Some 4%Z).
Definition strangerSession : SessionUser.t := SessionUser.mk 7 "Ben" false false None None.

(** Ten pupils, five of them of the elementary level; the office is open
    to the elementary level only; candidate A has four votes. *)
Definition tenPupils : list User.t :=
  admin
  :: map (fun '(i, r) => User.mk i "pupil" r false false (Some "elementary"%string) (Some 4%Z))
       [(2, "R2"); (3, "R3"); (4, "R4"); (5, "R5"); (6, "R6")]%Z%string
  ++ map (fun '(i, r) => User.mk i "pupil" r false false (Some "juniorHigh"%string) (Some 8%Z))
       [(7, "R7"); (8, "R8"); (9, "R9"); (10, "R10"); (11, "R11")]%Z%string.

(* ------------------------------------------------------------------ *)
(** ** The session routes and the school level route of [server/routes.ts] *)

(** [app.post("/api/auth/logout", ...)], the session store destroying the
    session without an error, as the memory store does. *)
Definition post_api_auth_logout (d : Db) (s : option SessionUser.t) : Outcome :=
  mkOutcome (mkResponse 200 (JMessage "Logged out successfully")) None d.

(** [app.get("/api/auth/me", ...)] *)
Definition get_api_auth_me (d : Db) (s : option SessionUser.t) : Outcome :=
  match s with
  | None => reply 401 "Not authenticated" s d
  | Some user => mkOutcome (mkResponse 200 (JSession user)) s d
  end.

Module LevelBody.
(** [req.body] of the school level selection. [gradeLevel] is [present]
    for a number that is an integer; any other value is [illtyped]. *)
Record t := mk { schoolLevel : field string; gradeLevel : field Z }.
End LevelBody.

Module LevelSelection.
Record t := mk { schoolLevel : string; gradeLevel : Z }.
End LevelSelection.

(** [z.enum(["elementary", "juniorHigh", "seniorHigh"])] *)
Definition schoolLevelEnum (l : string) : bool :=
  String.eqb l "elementary" || String.eqb l "juniorHigh" || String.eqb l "seniorHigh".

(** [schoolLevelSelectionSchema.parse]: the enum, and
    [z.number().int().min(3).max(12)]. *)
Definition schoolLevelSelectionSchema_parse (body : LevelBody.t) : option LevelSelection.t :=
  match required (LevelBody.schoolLevel body), required (LevelBody.gradeLevel body) with
  | Some l, Some g =>
      if schoolLevelEnum l && (3 <=? g)%Z && (g <=? 12)%Z
      then Some (LevelSelection.mk l g)
      else None
  | _, _ => None
  end.

(** What the school level route sends. *)
Inductive LevelJson :=
| LMessage (message : string)
| LZodError
| LUser (id : Z) (name : string) (schoolLevel : option string) (gradeLevel : option Z).

Record LevelOutcome := mkLevelOutcome {
  levelStatus : Z;
  levelBody : LevelJson;
  levelSession : option SessionUser.t;
  levelDb : Db
}.

(** [app.post("/api/students/select-level", ...)] *)
Definition post_api_students_select_level (S : Storage) (d : Db)
    (s : option SessionUser.t) (reqBody : LevelBody.t) : LevelOutcome :=
  match s with
  | None => mkLevelOutcome 401 (LMessage "Not authenticated") s d
  | Some user =>
      match schoolLevelSelectionSchema_parse reqBody with
      | None => mkLevelOutcome 400 LZodError s d
      | Some data =>
          (* Update user in storage *)
          let (updatedUser, d') :=
            updateUser S d (SessionUser.id user)
              (PartialUser.mk None None None
                 (Some (LevelSelection.schoolLevel data))
                 (Some (LevelSelection.gradeLevel data))) in
          match updatedUser with
          | None => mkLevelOutcome 404 (LMessage "User not found") s d'
          | Some u =>
              (* Update session *)
              mkLevelOutcome 200
                (LUser (User.id u) (User.name u) (User.schoolLevel u) (User.gradeLevel u))
                (Some (SessionUser.mk (SessionUser.id user) (SessionUser.name user)
                         (SessionUser.isAdmin user) (SessionUser.hasVoted user)
                         (Some (LevelSelection.schoolLevel data))
                         (Some (LevelSelection.gradeLevel data))))
                d'
          end
      end
  end.

(** The requests whose route starts with [!user || !user.isAdmin]. *)
Definition adminOnly (r : Request) : bool :=
  match r with
  | Login _ | SubmitVote _ => false
  | CreateUser _ | CreateUsers _ | UpdateUser _ _ | DeleteUser _ | ResetVote _ | GetStats => true
  end.

(* ------------------------------------------------------------------ *)
(** ** The constants of the client: school levels and grades *)

Module SchoolLevel.
Record t := mk { value : string; label : string; grades : list Z }.
End SchoolLevel.

Definition SCHOOL_LEVELS : list SchoolLevel.t :=
  [ SchoolLevel.mk "elementary" "Elementary" [3; 4; 5; 6]%Z;
    SchoolLevel.mk "juniorHigh" "Junior High School" [7; 8; 9; 10]%Z;
    SchoolLevel.mk "seniorHigh" "Senior High School" [11; 12]%Z ].

Definition GRADE_LEVELS : list Z := [3; 4; 5; 6; 7; 8; 9; 10; 11; 12]%Z.

(** [level?.grades || []]: an array, even an empty one, is truthy. *)
Definition getGradesBySchoolLevel (schoolLevel : string) : list Z :=
  match find (fun level => String.eqb (SchoolLevel.value level) schoolLevel) SCHOOL_LEVELS with
  | Some level => SchoolLevel.grades level
  | None => []
  end.

(** [level?.label || value]: the empty label is falsy. *)
Definition getSchoolLevelLabel (value : string) : string :=
  match find (fun level => String.eqb (SchoolLevel.value level) value) SCHOOL_LEVELS with
  | Some level =>
      match SchoolLevel.label level with
      | EmptyString => value
      | l => l
      end
  | None => value
  end.

Definition isLogin (r : Request) : bool :=
  match r with
  | Login _ => true
  | _ => false
  end.

(** [user.name], [user.isAdmin], ... of the stored user, as the login
    route copies them into the session. *)
Definition sessionOf (user : User.t) : SessionUser.t :=
  SessionUser.mk (User.id user) (User.name user) (User.isAdmin user)
    (User.hasVoted user) (User.schoolLevel user) (User.gradeLevel user).

(** A non-admin user whose school level is none of the three. *)
Definition withoutLevel (u : User.t) : bool :=
  negb (User.isAdmin u) && negb (existsb (isLevel (User.schoolLevel u)) schoolLevels).

(** The key of a row of [storage.getVoteCounts]. *)
Definition countKey (vc : VoteCount.t) : Z * Z :=
  (VoteCount.positionId vc, VoteCount.candidateId vc).

(* ------------------------------------------------------------------ *)
(** ** The students page of the admin: pages of ten *)

Definition itemsPerPage : nat := 10.

(** [Math.ceil(filteredUsers.length / itemsPerPage)] *)
Definition totalPages (n : nat) : nat :=
  if Nat.eqb (n mod itemsPerPage) 0 then n / itemsPerPage else S (n / itemsPerPage).

Definition indexOfLastItem (currentPage : nat) : nat := currentPage * itemsPerPage.

(** [indexOfLastItem - itemsPerPage]. On page 0 this is -10 and the slice
    from -10 to 0 is empty, which the cut-off subtraction of [nat] gives
    as the slice from 0 to 0. *)
Definition indexOfFirstItem (currentPage : nat) : nat :=
  indexOfLastItem currentPage - itemsPerPage.

(** [l.slice(first, last)] for [0 <= first]. *)
Definition slice {A : Type} (l : list A) (first last : nat) : list A :=
  skipn first (firstn last l).

Definition currentItems {A : Type} (filteredUsers : list A) (currentPage : nat) : list A :=
  slice filteredUsers (indexOfFirstItem currentPage) (indexOfLastItem currentPage).

(** "Showing [indexOfFirstItem + 1] to [shownLast] of n results". *)
Definition shownLast (n currentPage : nat) : nat :=
  if (n <? indexOfLastItem currentPage)%nat then n else indexOfLastItem currentPage.

(** The number on the page button [index] (from 0). *)
Definition pageNumber (totalPages currentPage index : Z) : Z :=
  if (totalPages <=? 5)%Z then (index + 1)%Z
  else if (currentPage <=? 3)%Z then (index + 1)%Z
  else if (currentPage >=? totalPages - 2)%Z then (totalPages - 4 + index)%Z
  else (currentPage - 2 + index)%Z.

(** [Array.from({ length: Math.min(totalPages, 5) }).map((_, index) => ...)] *)
Definition pageButtons (totalPages currentPage : Z) : list Z :=
  map (fun index => pageNumber totalPages currentPage (Z.of_nat index))
    (seq 0 (Z.to_nat (Z.min totalPages 5))).

(** What a click on an enabled control makes of the current page:
    Previous is disabled on page 1, Next on the last page, and a page
    button sets its number. *)
Inductive pageClick (totalPages : Z) (currentPage : Z) : Z -> Prop :=
| clickPrevious : currentPage <> 1%Z -> pageClick totalPages currentPage (currentPage - 1)%Z
| clickNext : currentPage <> totalPages -> pageClick totalPages currentPage (currentPage + 1)%Z
| clickPage (n : Z) : In n (pageButtons totalPages currentPage) -> pageClick totalPages currentPage n.

(* ------------------------------------------------------------------ *)
(** ** The voting page: what a student is offered *)

(** [user?.schoolLevel || ""] *)
Definition levelOrEmpty (user : option SessionUser.t) : string :=
  match user with
  | Some u => match SessionUser.schoolLevel u with Some l => l | None => "" end
  | None => ""
  end.

(** [user?.gradeLevel || 0] *)
Definition gradeOrZero (user : option SessionUser.t) : Z :=
  match user with
  | Some u => match SessionUser.gradeLevel u with Some g => g | None => 0%Z end
  | None => 0%Z
  end.

(** Filter positions by school level *)
Definition filteredPositions (user : option SessionUser.t) (positions : list Position.t)
  : list Position.t :=
  filter (fun pos => existsb (String.eqb (levelOrEmpty user)) (Position.schoolLevels pos))
    positions.

(** Filter candidates by school and grade level *)
Definition filteredCandidates (user : option SessionUser.t) (candidates : list Candidate.t)
  : list Candidate.t :=
  filter (fun c => existsb (String.eqb (levelOrEmpty user)) (Candidate.schoolLevels c)
                   && existsb (Z.eqb (gradeOrZero user)) (Candidate.gradeLevels c))
    candidates.

(** Get candidates by position *)
Definition getCandidatesByPosition (user : option SessionUser.t)
    (candidates : list Candidate.t) (positionId : Z) : list Candidate.t :=
  filter (fun c => (Candidate.positionId c =? positionId)%Z) (filteredCandidates user candidates).

(* ------------------------------------------------------------------ *)
(** ** The candidate form of the admin: grades of the chosen levels *)

Definition gradeOptions : list (string * list Z) :=
  [ ("elementary"%string, [3; 4; 5; 6]%Z);
    ("juniorHigh"%string, [7; 8; 9; 10]%Z);
    ("seniorHigh"%string, [11; 12]%Z) ].

(** [gradeOptions.find(option => option.level === level)?.grades || []] *)
Definition levelGrades (level : string) : list Z :=
  match find (fun option => String.eqb (fst option) level) gradeOptions with
  | Some option => snd option
  | None => []
  end.

(** The grades that can be ticked once the levels are chosen. *)
Definition availableGrades (watchSchoolLevels : list string) : list Z :=
  flat_map levelGrades watchSchoolLevels.

(** Filter out grades that are no longer available *)
Definition filteredGrades (watchSchoolLevels : list string) (currentGrades : list Z) : list Z :=
  filter (fun grade => existsb (Z.eqb grade) (availableGrades watchSchoolLevels)) currentGrades.

(* ------------------------------------------------------------------ *)
(** ** The partylist dialog: candidates by position *)

(** [if (!acc[positionId]) acc[positionId] = []; acc[positionId].push(candidate)]
    on an object given as the list of its keys and values. *)
Fixpoint pushTo (positionId : Z) (candidate : Candidate.t)
    (acc : list (Z * list Candidate.t)) : list (Z * list Candidate.t) :=
  match acc with
  | [] => [(positionId, [candidate])]
  | (k, l) :: acc' =>
      if (k =? positionId)%Z then (k, l ++ [candidate]) :: acc'
      else (k, l) :: pushTo positionId candidate acc'
  end.

(** [acc[positionId]] *)
Definition group (acc : list (Z * list Candidate.t)) (positionId : Z)
  : option (list Candidate.t) :=
  option_map snd (find (fun kl => (fst kl =? positionId)%Z) acc).

(** Group candidates by position *)
Definition candidatesByPosition (candidates : list Candidate.t) : list (Z * list Candidate.t) :=
  fold_left (fun acc candidate => pushTo (Candidate.positionId candidate) candidate acc)
    candidates [].

(* ------------------------------------------------------------------ *)
(** ** The constants of the client: avatar colours *)

Definition DEFAULT_AVATAR_COLORS : list string :=
  [ "#f44336"; "#e91e63"; "#9c27b0"; "#673ab7"; "#3f51b5"; "#2196f3"; "#03a9f4";
    "#00bcd4"; "#009688"; "#4caf50"; "#8bc34a"; "#cddc39"; "#ffc107"; "#ff9800";
    "#ff5722" ]%string.

(** [ToInt32]: an integer as a signed 32-bit one. *)
Definition toInt32 (x : Z) : Z := ((x + 2 ^ 31) mod 2 ^ 32 - 2 ^ 31)%Z.

(** [x << n] *)
Definition shiftLeft (x n : Z) : Z := toInt32 (Z.shiftl (toInt32 x) n).

(** [hash = name.charCodeAt(i) + ((hash << 5) - hash)]: the shift is on 32
    bits, the subtraction and the addition are on numbers. *)
Definition hashStep (hash code : Z) : Z := (code + (shiftLeft hash 5 - hash))%Z.

(** The loop over a name given by its UTF-16 code units, which is what
    [charCodeAt] reads. *)
Definition hashOfName (name : list Z) : Z := fold_left hashStep name 0%Z.

(** [DEFAULT_AVATAR_COLORS[Math.abs(hash) % DEFAULT_AVATAR_COLORS.length]];
    [None] is [undefined]. *)
Definition getColorForName (name : list Z) : option string :=
  nth_error DEFAULT_AVATAR_COLORS
    (Z.to_nat (Z.abs (hashOfName name) mod Z.of_nat (List.length DEFAULT_AVATAR_COLORS))).

(** The code units of a string of characters below 256. *)
Definition codeUnits (s : string) : list Z :=
  map (fun c => Z.of_N (Ascii.N_of_ascii c)) (list_ascii_of_string s).

(* ------------------------------------------------------------------ *)
(** ** The students page of the admin: the text of a mass registration

    A text is a [string] with one character for each UTF-16 code unit;
    texts with code units from 256 on are not covered. *)

(** White space and line terminators of ECMAScript among the code units
    below 256: tab, line feed, vertical tab, form feed, carriage return,
    space and no-break space. *)
Definition isWhiteSpace (c : Ascii.ascii) : bool :=
  let n := Ascii.nat_of_ascii c in
  Nat.eqb n 9 || Nat.eqb n 10 || Nat.eqb n 11 || Nat.eqb n 12 || Nat.eqb n 13
  || Nat.eqb n 32 || Nat.eqb n 160.

Fixpoint trimStart (s : string) : string :=
  match s with
  | EmptyString => EmptyString
  | String c s' => if isWhiteSpace c then trimStart s' else s
  end.

Fixpoint trimEnd (s : string) : string :=
  match s with
  | EmptyString => EmptyString
  | String c s' =>
      match trimEnd s' with
      | EmptyString => if isWhiteSpace c then EmptyString else String c EmptyString
      | t => String c t
      end
  end.

(** [s.trim()] *)
Definition trim (s : string) : string := trimEnd (trimStart s).

(** [s.split(sep)] for a separator of one character: never the empty
    array. *)
Fixpoint split (sep : Ascii.ascii) (s : string) : list string :=
  match s with
  | EmptyString => [EmptyString]
  | String c s' =>
      if Ascii.eqb c sep then EmptyString :: split sep s'
      else
        match split sep s' with
        | w :: ws => String c w :: ws
        | [] => [String c EmptyString]
        end
  end.

(** [!s]: the empty string is falsy. *)
Definition isEmpty (s : string) : bool :=
  match s with
  | EmptyString => true
  | _ => false
  end.

Module BulkEntry.
Record t := mk { name : string; referenceNumber : string }.
End BulkEntry.

(** The three messages pushed to [errors], by their line number
    ([index + 1]); the text around the number is left out. *)
Inductive BulkError :=
| InvalidFormat (line : nat)        (* Invalid format. Expected "Name, Reference Number" *)
| NameRequired (line : nat)         (* Name is required *)
| ReferenceRequired (line : nat).   (* Reference number is required *)

Definition lineOf (e : BulkError) : nat :=
  match e with
  | InvalidFormat line | NameRequired line | ReferenceRequired line => line
  end.

(** The separators: [','] and ['\n']. *)
Definition comma : Ascii.ascii := Ascii.ascii_of_nat 44.
Definition lineFeed : Ascii.ascii := Ascii.ascii_of_nat 10.

(** [lines.forEach((line, index) => ...)], from [index] on. *)
Fixpoint parseLines (lines : list string) (index : nat) (data : list BulkEntry.t)
    (errors : list BulkError) : list BulkEntry.t * list BulkError :=
  match lines with
  | [] => (data, errors)
  | line :: rest =>
      if isEmpty (trim line) then parseLines rest (S index) data errors (* Skip empty lines *)
      else
        match split comma line with
        | part0 :: part1 :: _ =>
            let name := trim part0 in
            let referenceNumber := trim part1 in
            if isEmpty name
            then parseLines rest (S index) data (errors ++ [NameRequired (index + 1)])
            else if isEmpty referenceNumber
            then parseLines rest (S index) data (errors ++ [ReferenceRequired (index + 1)])
            else parseLines rest (S index) (data ++ [BulkEntry.mk name referenceNumber]) errors
        | _ => parseLines rest (S index) data (errors ++ [InvalidFormat (index + 1)])
        end
  end.

(** [parseBulkUploadData]: what it sets [bulkUploadData] and
    [bulkUploadErrors] to. *)
Definition parseBulkUploadData (content : string) : list BulkEntry.t * list BulkError :=
  parseLines (split lineFeed content) 0 [] [].

(* ------------------------------------------------------------------ *)
(** ** The router of the client *)

(** Truthiness of [user.schoolLevel] and of [user.gradeLevel]. *)
Definition truthyString (o : option string) : bool :=
  match o with
  | Some (String _ _) => true
  | _ => false
  end.

Definition truthyNumber (o : option Z) : bool :=
  match o with
  | Some g => negb (g =? 0)%Z
  | None => false
  end.

(** [user?.isAdmin || false] of [useAuth]. *)
Definition isAdminOf (user : option SessionUser.t) : bool :=
  match user with
  | Some u => SessionUser.isAdmin u
  | None => false
  end.

Definition hasLevel (user : option SessionUser.t) : bool :=
  match user with
  | Some u => truthyString (SessionUser.schoolLevel u)
  | None => false
  end.

Definition hasGrade (user : option SessionUser.t) : bool :=
  match user with
  | Some u => truthyNumber (SessionUser.gradeLevel u)
  | None => false
  end.

Definition isSome {A : Type} (o : option A) : bool :=
  match o with
  | Some _ => true
  | None => false
  end.

(** The effect of [Router]: where it sends the browser, if anywhere. *)
Definition redirect (user : option SessionUser.t) (isLoading : bool) (location : string)
  : option string :=
  if isLoading then None
  else if negb (isSome user) && negb (String.prefix "/admin" location)
          && negb (String.eqb location "/")
  then Some "/"%string
  else if isSome user && negb (hasLevel user) && negb (hasGrade user)
          && negb (isAdminOf user) && negb (String.eqb location "/school-level")
  then Some "/school-level"%string
  else if isSome user && hasLevel user && hasGrade user && negb (isAdminOf user)
          && negb (String.eqb location "/voting")
  then Some "/voting"%string
  else if isAdminOf user && String.eqb location "/"
  then Some "/admin"%string
  else None.

(** What a guarded route renders. *)
Inductive View := LoadingView | ComponentView | NotFoundView.

Definition AdminRoute (user : option SessionUser.t) (isLoading : bool) : View :=
  if isLoading then LoadingView
  else if isAdminOf user then ComponentView else NotFoundView.

Definition StudentRoute (user : option SessionUser.t) (isLoading : bool) : View :=
  if isLoading then LoadingView
  else if isSome user && negb (isAdminOf user) then ComponentView else NotFoundView.

Definition SchoolLevelRoute (user : option SessionUser.t) (isLoading : bool) : View :=
  if isLoading then LoadingView
  else if isSome user && negb (isAdminOf user) && negb (hasLevel user) && negb (hasGrade user)
  then ComponentView else NotFoundView.

(** The first effect of the voting page: "Ensure user is authenticated and
    has selected school level". *)
Definition votingPageRedirect (user : option SessionUser.t) : option string :=
  if negb (isSome user) then Some "/"%string
  else if negb (hasLevel user) || negb (hasGrade user) then Some "/school-level"%string
  else None.

(** An entry as the server and the login need it: a name and a reference
    number that are not empty and have no white space around them. *)
Definition cleanEntry (e : BulkEntry.t) : Prop :=
  BulkEntry.name e <> EmptyString
  /\ BulkEntry.referenceNumber e <> EmptyString
  /\ trim (BulkEntry.name e) = BulkEntry.name e
  /\ trim (BulkEntry.referenceNumber e) = BulkEntry.referenceNumber e.

(** A line the loop does not skip. *)
Definition notBlank (line : string) : bool := negb (isEmpty (trim line)).

(** A student with one of school level and grade, and not the other. *)
Definition halfSet (u : SessionUser.t) : bool :=
  xorb (truthyString (SessionUser.schoolLevel u)) (truthyNumber (SessionUser.gradeLevel u)).

(* ------------------------------------------------------------------ *)
(** * Properties *)

Local Open Scope string_scope.

#[local] Arguments String.eqb : simpl never.

Ltac unfold_routes :=
  unfold handle, post_api_auth_login, post_api_users, post_api_users_bulk,
    put_api_users, delete_api_users,
    post_api_users_reset_vote, post_api_votes, get_api_votes_stats, reply.

(** ** The shipped store *)

(** The loop of the bulk route with the shipped [storage]. *)
Lemma storage_bulkLoop_db (d : Db) (usersData : list InsertUser.t) (results : list BulkResult) :
  snd (bulkLoop storage d usersData results) = d.
Proof.
  revert results. induction usersData as [| userData rest IH]; intros results; simpl.
  - reflexivity.
  - destruct (String.eqb (InsertUser.referenceNumber userData) "ARSC2025"); apply IH.
Qed.

(** No route writes to the database through the shipped [storage]. *)
Lemma storage_keeps_db (d : Db) (s : option SessionUser.t) (r : Request) :
  db (handle storage d s r) = d.
Proof.
  destruct r as [b | b | bs | [id |] b | [id |] | [id |] | b |]; unfold_routes; simpl.
  - destruct (loginSchema_parse b) as [data |]; simpl; [| reflexivity].
    destruct (String.eqb (Login.referenceNumber data) "ARSC2025"); simpl; [| reflexivity].
    destruct (String.eqb "admin" (Login.name data)); reflexivity.
  - destruct (notAdmin s); simpl; [reflexivity |].
    destruct (insertUserSchema_parse b) as [data |]; simpl; [| reflexivity].
    destruct (String.eqb (InsertUser.referenceNumber data) "ARSC2025"); reflexivity.
  - destruct (notAdmin s); simpl; [reflexivity |].
    destruct (insertUserSchema_array_parse bs) as [usersData |]; simpl; [| reflexivity].
    pose proof (storage_bulkLoop_db d usersData []) as Hloop.
    destruct (bulkLoop storage d usersData []) as [results d']. exact Hloop.
  - destruct (notAdmin s); simpl; [reflexivity |].
    destruct (insertUserSchema_partial_parse b) as [data |]; simpl; [| reflexivity].
    destruct (truthy (PartialUser.referenceNumber data)) as [r |]; [| reflexivity].
    destruct (String.eqb r "ARSC2025"); simpl; [| reflexivity].
    destruct (negb _); reflexivity.
  - destruct (notAdmin s); reflexivity.
  - destruct s as [user |]; simpl; [| reflexivity].
    destruct (SessionUser.isAdmin user); simpl; [| reflexivity].
    destruct (id =? SessionUser.id user)%Z; reflexivity.
  - destruct s as [user |]; simpl; [| reflexivity].
    destruct (SessionUser.isAdmin user); reflexivity.
  - destruct (notAdmin s); reflexivity.
  - destruct (notAdmin s); reflexivity.
  - destruct s; reflexivity.
  - destruct (notAdmin s); reflexivity.
Qed.

Lemma reachable_storage (d0 d : Db) : reachable storage d0 d -> d = d0.
Proof.
  induction 1 as [| d s r _ IH].
  - reflexivity.
  - rewrite storage_keeps_db. exact IH.
Qed.

(** With the shipped [storage] an authenticated vote submission ends at the
    lookup of its user, whatever the database holds. *)
Lemma storage_vote_404 (d : Db) (user : SessionUser.t) (reqBody : VoteBody.t) :
  post_api_votes storage d (Some user) reqBody
  = reply 404 "User not found" (Some user) d.
Proof. reflexivity. Qed.

(** With the shipped [storage] an admin's reset-vote finds no user to reset. *)
Lemma storage_reset_vote_404 (d : Db) (user : SessionUser.t) (id : Z) :
  SessionUser.isAdmin user = true ->
  post_api_users_reset_vote storage d (Some user) (Some id)
  = reply 404 "User not found" (Some user) d.
Proof.
  intros Hadmin. unfold post_api_users_reset_vote, notAdmin. rewrite Hadmin. reflexivity.
Qed.

(** The one login the shipped [storage] lets through is the admin's; it
    sets [adminSession]. Anybody else is answered 401. *)
Example shipped_store_logins :
  session (post_api_auth_login storage emptyDb None
             (LoginBody.mk (present "admin") (present "ARSC2025")))
  = Some adminSession
  /\ response (post_api_auth_login storage election None
                 (LoginBody.mk (present "Ana") (present "R1")))
     = mkResponse 401 (JMessage "Invalid credentials").
Proof. split; reflexivity. Qed.

(** ** The vote route over any store *)

(** [insertVoteSchema] passes exactly the ids of the 32-bit range, and
    hands them on as they are. *)
Lemma insertVoteSchema_parse_some (userId candidateId positionId : Z) (voteData : InsertVote.t) :
  insertVoteSchema_parse userId candidateId positionId = Some voteData
  <-> inInt32 userId && inInt32 candidateId && inInt32 positionId = true
      /\ voteData = InsertVote.mk userId candidateId positionId.
Proof.
  unfold insertVoteSchema_parse.
  destruct (inInt32 userId && inInt32 candidateId && inInt32 positionId); split.
  - intros H. inversion H. split; reflexivity.
  - intros [_ ->]. reflexivity.
  - discriminate.
  - intros [H _]. discriminate.
Qed.

(** The answers the vote route gives when every storage call returns, for
    a body with two integers. The 400 of [insertVoteSchema] is given only
    for an id outside the 32-bit range, after the three lookups found the
    rows. None of the answers says that the user has voted already. *)
Lemma post_api_votes_answers (S : Storage) (d : Db) (s : option SessionUser.t)
    (reqBody : VoteBody.t) :
  let r := response (post_api_votes S d s reqBody) in
  r = mkResponse 401 (JMessage "Not authenticated")
  \/ r = mkResponse 404 (JMessage "User not found")
  \/ r = mkResponse 404 (JMessage "Position not found")
  \/ r = mkResponse 404 (JMessage "Candidate not found")
  \/ r = mkResponse 400 (JMessage "Candidate is not for this position")
  \/ (r = mkResponse 400 JZodError
      /\ exists user,
           s = Some user
           /\ inInt32 (SessionUser.id user) && inInt32 (VoteBody.candidateId reqBody)
              && inInt32 (VoteBody.positionId reqBody) = false)
  \/ exists vote, r = mkResponse 201 (JVote vote).
Proof.
  unfold post_api_votes, reply.
  destruct s as [user |]; simpl; [| tauto].
  destruct (getUser S d (SessionUser.id user)); simpl; [| tauto].
  destruct (getPosition S d (VoteBody.positionId reqBody)) as [position |]; simpl; [| tauto].
  destruct (getCandidate S d (VoteBody.candidateId reqBody)) as [candidate |]; simpl; [| tauto].
  destruct (Candidate.positionId candidate =? Position.id position)%Z; simpl; [| tauto].
  unfold insertVoteSchema_parse.
  destruct (inInt32 (SessionUser.id user) && inInt32 (VoteBody.candidateId reqBody)
            && inInt32 (VoteBody.positionId reqBody)) eqn:Hrange; simpl.
  - destruct (createVote S d _) as [vote d']. simpl.
    do 6 right. exists vote. reflexivity.
  - do 5 right. left. split; [reflexivity |]. exists user. split; [reflexivity | exact Hrange].
Qed.

(** ** Counting *)

Lemma length_filter_countIf {A : Type} (p : A -> bool) (l : list A) :
  List.length (filter p l) = countIf p l.
Proof.
  induction l as [| x l IH]; simpl; [reflexivity |].
  destruct (p x); simpl; congruence.
Qed.

Lemma totalStudents_spec (us : list User.t) : totalStudents us = spec_totalStudents us.
Proof. apply length_filter_countIf. Qed.

Lemma votedStudents_spec (us : list User.t) : votedStudents us = spec_votedStudents us.
Proof.
  unfold votedStudents, spec_votedStudents.
  induction us as [| u us IH]; simpl; [reflexivity |].
  destruct (User.isAdmin u); simpl; [exact IH |].
  destruct (User.hasVoted u); simpl; congruence.
Qed.

(* ------------------------------------------------------------------ *)
(** ** C1: one vote for a user and a position *)

(** With the shipped [storage] no route ever writes a row of [votes]: a
    table without votes stays without votes, whatever requests are sent.
    Nothing in the vote route brings this about; the store writes
    nothing. *)
Lemma shipped_store_keeps_votes_empty (d0 d : Db) :
  votes d0 = [] ->
  reachable storage d0 d ->
  votes d = [].
Proof.
  intros Hempty Hreach.
  apply reachable_storage in Hreach. subst d. exact Hempty.
Qed.


(* ------------------------------------------------------------------ *)
(** ** C10: the user lookup comes first *)

(** C10. An authenticated vote submission whose user [storage.getUser]
    does not find is answered 404 "User not found", whatever the lookups of
    the position and the candidate would give, and the database and the
    session are left as they were; with the shipped [storage], whose
    [getUser] finds nobody, this is the answer to every authenticated
    submission. *)
Theorem vote_of_unknown_user (S : Storage) (d : Db) (user : SessionUser.t)
    (reqBody : VoteBody.t) :
  getUser S d (SessionUser.id user) = None ->
  post_api_votes S d (Some user) reqBody = reply 404 "User not found" (Some user) d
  /\ (forall (d' : Db) (user' : SessionUser.t) (reqBody' : VoteBody.t),
        getUser storage d' (SessionUser.id user') = None
        /\ post_api_votes storage d' (Some user') reqBody'
           = reply 404 "User not found" (Some user') d').
Proof.
  intros Hnone. split.
  - unfold post_api_votes. rewrite Hnone. reflexivity.
  - intros d' user' reqBody'. split; reflexivity.
Qed.

(** C10 where the position and the candidate are there and consistent, and
    only the user is missing. *)
Lemma vote_of_unknown_user_witness :
  getPosition tableStorage election 1 = Some president
  /\ getCandidate tableStorage election 1 = Some candidateA
  /\ post_api_votes tableStorage election (Some strangerSession) (VoteBody.mk 1 1)
     = reply 404 "User not found" (Some strangerSession) election.
Proof.
  split; [reflexivity | split; [reflexivity |]].
  apply (vote_of_unknown_user tableStorage election strangerSession (VoteBody.mk 1 1)).
  reflexivity.
Defined.

(* ------------------------------------------------------------------ *)
(** ** C9: no eligibility check *)



(** The other answer after the four checks: ids that [insertVoteSchema]
    does not take are answered 400 with the message of the [ZodError], and
    nothing is written. *)
Lemma vote_outside_schema_rejected (S : Storage) (d : Db) (user : SessionUser.t)
    (reqBody : VoteBody.t) (userRecord : User.t) (position : Position.t)
    (candidate : Candidate.t) :
  getUser S d (SessionUser.id user) = Some userRecord ->
  getPosition S d (VoteBody.positionId reqBody) = Some position ->
  getCandidate S d (VoteBody.candidateId reqBody) = Some candidate ->
  Candidate.positionId candidate = Position.id position ->
  insertVoteSchema_parse (SessionUser.id user) (VoteBody.candidateId reqBody)
    (VoteBody.positionId reqBody) = None ->
  post_api_votes S d (Some user) reqBody
  = mkOutcome (mkResponse 400 JZodError) (Some user) d.
Proof.
  intros Huser Hposition Hcandidate Hsame Hparse.
  unfold post_api_votes. rewrite Huser, Hposition, Hcandidate, Hsame.
  rewrite Z.eqb_refl. simpl. rewrite Hparse. reflexivity.
Qed.

(* ------------------------------------------------------------------ *)
(** ** C4: a candidate of another position *)

(** C4 as stated fails: the position and the candidate are found and do
    not match, but the session's user is in no table, and the answer is
    404 "User not found", not 400. *)
Lemma inconsistent_vote_of_unknown_user :
  getPosition tableStorage election 1 = Some president
  /\ getCandidate tableStorage election 3 = Some candidateC
  /\ Candidate.positionId candidateC <> Position.id president
  /\ response (post_api_votes tableStorage election (Some strangerSession) (VoteBody.mk 3 1))
     = mkResponse 404 (JMessage "User not found")
  /\ status (response (post_api_votes tableStorage election (Some strangerSession)
                         (VoteBody.mk 3 1))) <> 400%Z.
Proof.
  repeat split; try reflexivity; vm_compute; discriminate.
Qed.

(** C4, amended. When the session user, the position and the candidate
    are found and the candidate is of another position than the submitted
    one, the answer is 400 "Candidate is not for this position" and nothing
    else happens: [storage.createVote] is not called, the database and the
    session are as before. *)
Theorem inconsistent_vote_rejected (S : Storage) (d : Db) (user : SessionUser.t)
    (reqBody : VoteBody.t) (userRecord : User.t) (position : Position.t)
    (candidate : Candidate.t) :
  getUser S d (SessionUser.id user) = Some userRecord ->
  getPosition S d (VoteBody.positionId reqBody) = Some position ->
  getCandidate S d (VoteBody.candidateId reqBody) = Some candidate ->
  Candidate.positionId candidate <> Position.id position ->
  post_api_votes S d (Some user) reqBody
  = reply 400 "Candidate is not for this position" (Some user) d.
Proof.
  intros Huser Hposition Hcandidate Hother.
  unfold post_api_votes. rewrite Huser, Hposition, Hcandidate.
  apply Z.eqb_neq in Hother. rewrite Hother. reflexivity.
Qed.

(** C4, amended, for the pupil naming candidate C (of office 2) under
    office 1. *)
Lemma inconsistent_vote_rejected_witness :
  post_api_votes tableStorage election (Some pupilSession) (VoteBody.mk 3 1)
  = reply 400 "Candidate is not for this position" (Some pupilSession) election.
Proof.
  apply (inconsistent_vote_rejected tableStorage election pupilSession (VoteBody.mk 3 1)
           (userRecord := pupil) (position := president) (candidate := candidateC));
    try reflexivity.
  vm_compute. discriminate.
Defined.

(* ------------------------------------------------------------------ *)
(** ** C8: a reference number already taken *)

(** The check of the route: a create-user request of an admin session
    whose body passes [insertUserSchema] and whose reference number
    [storage.getUserByReferenceNumber] finds is answered 409 "User with
    this reference number already exists"; [storage.createUser] is not
    called and the database is as before. *)
Lemma taken_reference_number_rejected (S : Storage) (d : Db) (user : SessionUser.t)
    (reqBody : UserBody.t) (data : InsertUser.t) (existingUser : User.t) :
  SessionUser.isAdmin user = true ->
  insertUserSchema_parse reqBody = Some data ->
  getUserByReferenceNumber S d (InsertUser.referenceNumber data) = Some existingUser ->
  post_api_users S d (Some user) reqBody
  = reply 409 "User with this reference number already exists" (Some user) d.
Proof.
  intros Hadmin Hparse Hfound.
  unfold post_api_users, notAdmin. rewrite Hadmin. simpl.
  rewrite Hparse, Hfound. reflexivity.
Qed.

(** The one reference number the shipped [storage] finds. *)
Lemma shipped_store_finds_one_number (d : Db) (referenceNumber : string) :
  referenceNumber <> "ARSC2025" ->
  getUserByReferenceNumber storage d referenceNumber = None.
Proof.
  intros Hother. simpl.
  destruct (String.eqb_spec referenceNumber "ARSC2025") as [Heq | _];
    [contradiction | reflexivity].
Qed.

(** C8 on the code. The route asks [storage.getUserByReferenceNumber] and
    answers 409 when it finds a user, but the shipped [storage] finds
    nothing it was given: [createUser] hands back a user with id 1 and
    stores nothing, and [getUserByReferenceNumber] knows the one number
    "ARSC2025". The admin creating the user "R1" and then a user "R1"
    again is answered 201 both times, with the same id 1, and the second
    request is not told that the number is taken. On a store that keeps
    the rows, the same two requests are answered 201 and 409. *)
Theorem taken_reference_number_created_again :
  let reqBody := UserBody.mk (present "Ana") (present "R1") missing missing missing in
  let o1 := post_api_users storage emptyDb (Some adminSession) reqBody in
  let o2 := post_api_users storage (db o1) (session o1) reqBody in
  response o1 = mkResponse 201 (JUser (User.mk 1 "Ana" "R1" false false None None))
  /\ getUserByReferenceNumber storage (db o1) "R1" = None
  /\ response o2 = mkResponse 201 (JUser (User.mk 1 "Ana" "R1" false false None None))
  /\ db o2 = emptyDb
  /\ (forall (d : Db) (data : InsertUser.t), snd (createUser storage d data) = d)
  /\ map status
       (fst (fst (serve tableStorage emptyDb (Some adminSession)
                    [CreateUser reqBody; CreateUser reqBody])))
     = [201; 409]%Z.
Proof. repeat split. Qed.

(* ------------------------------------------------------------------ *)
(** ** C6: the participation rate *)

(** C6. In the report, [participationRate] is 0 (the number, so not NaN)
    when there is no non-admin user, and otherwise the count of non-admin
    users who have voted, divided by the count of non-admin users, times
    100, in binary64 arithmetic. The route computes it for every list of
    users and never throws. *)
Theorem participationRate_of_students (voteCounts : list VoteCount.t)
    (positions : list Position.t) (users : list User.t) (candidates : list Candidate.t) :
  let rate :=
    Summary.participationRate (Stats.summary (voteStats voteCounts positions users candidates)) in
  (spec_totalStudents users = O
   /\ rate = 0%float
   /\ PrimFloat.is_nan rate = false)
  \/ (0 < spec_totalStudents users
      /\ rate = (jsnum (spec_votedStudents users) / jsnum (spec_totalStudents users) * 100)%float).
Proof.
  simpl. unfold participationRate.
  rewrite votedStudents_spec, totalStudents_spec.
  destruct (spec_totalStudents users) as [| n] eqn:Htotal.
  - left. repeat split.
  - right. split; [lia | reflexivity].
Qed.

(** Without the guard the rate of an empty school would be NaN. *)
Example unguarded_rate_is_nan :
  PrimFloat.is_nan (jsnum 0 / jsnum 0 * 100)%float = true.
Proof. reflexivity. Qed.

(* ------------------------------------------------------------------ *)
(** ** C7: a candidate's percentage *)

(** C7 as stated fails where there is no non-admin user: candidate A has
    four votes, the route reports 0 percent, and four divided by zero
    times 100 is infinity. *)
Lemma candidate_percentage_without_students :
  totalStudents [admin] = O
  /\ votesByCandidateAndPosition [VoteCount.mk 1 1 4] [president] [admin] [candidateA]
     = [PositionCandidates.mk 1 "President" [CandidateVotes.mk 1 "A" 4 0%float]]
  /\ (jsnum 4 / jsnum (totalStudents [admin]) * 100)%float = infinity
  /\ 0%float <> (jsnum 4 / jsnum (totalStudents [admin]) * 100)%float.
Proof.
  repeat split; try reflexivity. vm_compute. discriminate.
Qed.

(** C7, amended. For every position of the report and every candidate of
    that position, the report has an entry for the candidate under the
    position, with the candidate's count from [storage.getVoteCounts], and
    its percentage is that count divided by the count of all non-admin
    users times 100 when there is a non-admin user, and 0 when there is
    none. The denominator does not depend on the position. *)
Theorem candidate_percentage_of_all_students (voteCounts : list VoteCount.t)
    (positions : list Position.t) (users : list User.t) (candidates : list Candidate.t)
    (position : Position.t) (candidate : Candidate.t) :
  In position positions ->
  In candidate candidates ->
  Candidate.positionId candidate = Position.id position ->
  exists pr cr,
    In pr (Stats.votesByCandidateAndPosition (voteStats voteCounts positions users candidates))
    /\ PositionCandidates.positionId pr = Position.id position
    /\ In cr (PositionCandidates.candidates pr)
    /\ CandidateVotes.candidateId cr = Candidate.id candidate
    /\ CandidateVotes.votes cr = voteCount voteCounts position candidate
    /\ CandidateVotes.percentage cr
       = match spec_totalStudents users with
         | O => 0%float
         | S _ => (jsnum (CandidateVotes.votes cr) / jsnum (spec_totalStudents users) * 100)%float
         end.
Proof.
  intros Hposition Hcandidate Hsame.
  simpl. unfold votesByCandidateAndPosition.
  eexists. eexists. split.
  - apply in_map_iff. exists position. split; [reflexivity | exact Hposition].
  - simpl. split; [reflexivity |]. split.
    + apply in_map_iff. exists candidate. split; [reflexivity |].
      apply filter_In. split; [exact Hcandidate |].
      apply Z.eqb_eq. exact Hsame.
    + simpl. split; [reflexivity |]. split; [reflexivity |].
      rewrite totalStudents_spec.
      destruct (spec_totalStudents users); reflexivity.
Qed.

(** C7, amended, at the spec's scenario: ten pupils, four votes, 40
    percent, though the office is open to five of the ten only. *)
Lemma candidate_percentage_of_all_students_witness :
  spec_totalStudents tenPupils = 10
  /\ Stats.votesByCandidateAndPosition
       (voteStats [VoteCount.mk 1 1 4] [president] tenPupils [candidateA])
     = [PositionCandidates.mk 1 "President" [CandidateVotes.mk 1 "A" 4 40%float]]
  /\ exists pr cr,
       In pr (Stats.votesByCandidateAndPosition
                (voteStats [VoteCount.mk 1 1 4] [president] tenPupils [candidateA]))
       /\ PositionCandidates.positionId pr = Position.id president
       /\ In cr (PositionCandidates.candidates pr)
       /\ CandidateVotes.candidateId cr = Candidate.id candidateA
       /\ CandidateVotes.votes cr = voteCount [VoteCount.mk 1 1 4] president candidateA
       /\ CandidateVotes.percentage cr
          = match spec_totalStudents tenPupils with
            | O => 0%float
            | S _ => (jsnum (CandidateVotes.votes cr) / jsnum (spec_totalStudents tenPupils) * 100)%float
            end.
Proof.
  split; [reflexivity | split; [reflexivity |]].
  apply (candidate_percentage_of_all_students [VoteCount.mk 1 1 4] [president] tenPupils
           [candidateA] president candidateA).
  - left. reflexivity.
  - left. reflexivity.
  - reflexivity.
Defined.

(* ------------------------------------------------------------------ *)
(** ** C2: a second vote for the same position *)

(** C2 on the code. The pupil has voted for A as president and submits a
    vote for B as president. Against a store that finds the pupil, the
    position and the candidate, the answer is 201, a second row with the
    same user and position is written and the count of the position is 2.
    One client sending the two votes in a row is answered 201 twice. With
    the shipped [storage] the answer is 404 "User not found", for the first
    vote too. In no case does the route answer that the user has voted
    already. *)
Lemma second_vote_for_a_position :
  let o := post_api_votes tableStorage electionAfterVote
             (Some (SessionUser.markVoted pupilSession)) (VoteBody.mk 2 1) in
  map voteKey (votes electionAfterVote) = [(2, 1)%Z]
  /\ response o = mkResponse 201 (JVote (Vote.mk (Some 2%Z) 2 2 1))
  /\ map voteKey (votes (db o)) = [(2, 1)%Z; (2, 1)%Z]
  /\ map PositionVotes.votes
       (votesByPosition (getVoteCounts tableStorage (db o)) [president] (users (db o)))
     = [2]
  /\ map status
       (fst (fst (serve tableStorage election (Some pupilSession)
                    [SubmitVote (VoteBody.mk 1 1); SubmitVote (VoteBody.mk 2 1)])))
     = [201; 201]%Z
  /\ map status
       (fst (fst (serve storage election (Some pupilSession)
                    [SubmitVote (VoteBody.mk 1 1); SubmitVote (VoteBody.mk 2 1)])))
     = [404; 404]%Z.
Proof. repeat split. Qed.

(* ------------------------------------------------------------------ *)
(** ** C3: what an accepted vote leaves behind *)

(** C3 on the code. The route marks [hasVoted] in the session only and
    leaves the storing to [storage.createVote], which as shipped returns
    its argument and writes nothing. Where the three lookups succeed, the
    pupil's vote is answered 201 and the session says [hasVoted]; the
    database is as before: no row in [votes], and the pupil's row still
    says not voted. *)
Lemma accepted_vote_is_not_stored :
  let o := post_api_votes storageWithLookups election (Some pupilSession) (VoteBody.mk 1 1) in
  response o = mkResponse 201 (JVote (Vote.mk None 2 1 1))
  /\ option_map SessionUser.hasVoted (session o) = Some true
  /\ db o = election
  /\ votes (db o) = []
  /\ option_map User.hasVoted (getUser storageWithLookups (db o) 2) = Some false
  /\ (forall (d : Db) (data : InsertVote.t),
        createVote storage d data
        = (Vote.mk None (InsertVote.userId data) (InsertVote.candidateId data)
             (InsertVote.positionId data), d)).
Proof. repeat split. Qed.

(* ------------------------------------------------------------------ *)
(** ** C5: resetting a user's vote *)

(** C5 on the code. The route leaves the work to [storage.resetUserVote],
    which as shipped returns [null]. The admin's reset of the pupil's vote
    is answered 404 "User not found"; the pupil's vote row and has-voted
    flag are as before; the pupil's next vote is answered 404 as well. The
    same for user 1, the one user the shipped store knows. *)
Lemma reset_vote_resets_nothing :
  let o := post_api_users_reset_vote storage electionAfterVote (Some adminSession)
             (Some 2%Z) in
  response o = mkResponse 404 (JMessage "User not found")
  /\ db o = electionAfterVote
  /\ map voteKey (votes (db o)) = [(2, 1)%Z]
  /\ response (post_api_votes storage (db o) (Some pupilSession) (VoteBody.mk 1 1))
     = mkResponse 404 (JMessage "User not found")
  /\ getUserByReferenceNumber storage electionAfterVote "ARSC2025" = Some admin
  /\ response (post_api_users_reset_vote storage electionAfterVote (Some adminSession)
                 (Some 1%Z))
     = mkResponse 404 (JMessage "User not found")
  /\ response (post_api_votes storage electionAfterVote (Some adminSession)
                 (VoteBody.mk 1 1))
     = mkResponse 404 (JMessage "User not found").
Proof. repeat split. Qed.

(* ------------------------------------------------------------------ *)
(** * More of the routes *)

Local Open Scope list_scope.

(** ** The admin gate *)

(** A request to a route for admins, sent without an admin's session, is
    answered 403 "Unauthorized" before the body, the path or the store is
    looked at: nothing is read, written or changed in the session. *)
Theorem non_admin_request_refused (S : Storage) (d : Db) (s : option SessionUser.t)
    (r : Request) :
  adminOnly r = true ->
  notAdmin s = true ->
  handle S d s r = reply 403 "Unauthorized" s d.
Proof.
  intros Hroute Hnot.
  destruct r as [b | b | bs | p b | p | p | b |]; simpl in Hroute; try discriminate;
    unfold handle, post_api_users, post_api_users_bulk, put_api_users,
      post_api_users_reset_vote, get_api_votes_stats;
    try (rewrite Hnot; reflexivity).
  unfold delete_api_users. destruct s as [user |]; [| reflexivity].
  simpl in Hnot. rewrite Hnot. reflexivity.
Qed.

Lemma non_admin_request_refused_witness :
  handle tableStorage election (Some pupilSession)
    (CreateUsers [UserBody.mk (present "Ben") (present "R9") (present true) missing missing])
  = reply 403 "Unauthorized" (Some pupilSession) election.
Proof.
  apply (non_admin_request_refused tableStorage election (Some pupilSession)); reflexivity.
Defined.

(** An admin cannot delete the account of the session: the answer is 400
    "Cannot delete your own account" and [storage.deleteUser] is not
    called, whatever the store. *)
Theorem admin_cannot_delete_own_account (S : Storage) (d : Db) (user : SessionUser.t) :
  SessionUser.isAdmin user = true ->
  delete_api_users S d (Some user) (Some (SessionUser.id user))
  = reply 400 "Cannot delete your own account" (Some user) d.
Proof.
  intros Hadmin. unfold delete_api_users. rewrite Hadmin. simpl.
  rewrite Z.eqb_refl. reflexivity.
Qed.

Lemma admin_cannot_delete_own_account_witness :
  delete_api_users tableStorage election (Some adminSession) (Some 1%Z)
  = reply 400 "Cannot delete your own account" (Some adminSession) election.
Proof.
  apply (admin_cannot_delete_own_account tableStorage election adminSession). reflexivity.
Defined.

(** ** The session *)

(** No request but a login replaces the session. The one change another
    request makes is [hasVoted: true], set when a vote is answered 201. So
    the user id and the admin flag of a session stay what the login made
    them. *)
Theorem only_login_replaces_session (S : Storage) (d : Db) (s : option SessionUser.t)
    (r : Request) :
  isLogin r = false ->
  session (handle S d s r) = s
  \/ exists user vote,
       s = Some user
       /\ session (handle S d s r) = Some (SessionUser.markVoted user)
       /\ response (handle S d s r) = mkResponse 201 (JVote vote).
Proof.
  intros Hother.
  destruct r as [b | b | bs | [id |] b | [id |] | [id |] | b |]; simpl in Hother;
    try discriminate; unfold_routes.
  - left. destruct (notAdmin s); [reflexivity |].
    destruct (insertUserSchema_parse b) as [data |]; [| reflexivity].
    destruct (getUserByReferenceNumber S d _); [reflexivity |].
    destruct (createUser S d data). reflexivity.
  - left. destruct (notAdmin s); [reflexivity |].
    destruct (insertUserSchema_array_parse bs) as [usersData |]; [| reflexivity].
    destruct (bulkLoop S d usersData []). reflexivity.
  - left. destruct (notAdmin s); [reflexivity |].
    destruct (insertUserSchema_partial_parse b) as [data |]; [| reflexivity].
    match goal with |- context [if ?c then _ else _] => destruct c end; [reflexivity |].
    destruct (updateUser S d id data) as [[u |] d']; reflexivity.
  - left. destruct (notAdmin s); reflexivity.
  - left. destruct s as [user |]; [| reflexivity].
    destruct (negb (SessionUser.isAdmin user)); [reflexivity |].
    destruct (id =? SessionUser.id user)%Z; [reflexivity |].
    destruct (deleteUser S d id) as [[|] d']; reflexivity.
  - left. destruct s as [user |]; [| reflexivity].
    destruct (negb (SessionUser.isAdmin user)); reflexivity.
  - left. destruct (notAdmin s); [reflexivity |].
    destruct (resetUserVote S d id) as [[u |] d']; reflexivity.
  - left. destruct (notAdmin s); reflexivity.
  - destruct s as [user |]; [| left; reflexivity].
    destruct (getUser S d (SessionUser.id user)); [| left; reflexivity].
    destruct (getPosition S d (VoteBody.positionId b)) as [position |]; [| left; reflexivity].
    destruct (getCandidate S d (VoteBody.candidateId b)) as [candidate |];
      [| left; reflexivity].
    destruct (negb (Candidate.positionId candidate =? Position.id position)%Z);
      [left; reflexivity |].
    destruct (insertVoteSchema_parse _ _ _) as [voteData |]; [| left; reflexivity].
    destruct (createVote S d voteData) as [vote d'].
    right. exists user, vote. repeat split.
  - left. destruct (notAdmin s); reflexivity.
Qed.

Lemma only_login_replaces_session_witness :
  session (handle tableStorage election (Some pupilSession) (SubmitVote (VoteBody.mk 1 1)))
  = Some pupilSession
  \/ exists user vote,
       Some pupilSession = Some user
       /\ session (handle tableStorage election (Some pupilSession)
                     (SubmitVote (VoteBody.mk 1 1)))
          = Some (SessionUser.markVoted user)
       /\ response (handle tableStorage election (Some pupilSession)
                      (SubmitVote (VoteBody.mk 1 1)))
          = mkResponse 201 (JVote vote).
Proof.
  apply (only_login_replaces_session tableStorage election (Some pupilSession)
           (SubmitVote (VoteBody.mk 1 1))).
  reflexivity.
Defined.

(** ** Logging in *)

(** A login is answered 200 exactly when the body passes [loginSchema]
    (a name and a reference number, both non-empty), the store finds a
    user by the reference number, and that user's name is the name given,
    character for character. The session is then that user's. Every other
    attempt is answered 400 or 401 and leaves the session as it was, also
    the session of somebody logged in. The database is never written. *)
Theorem login_succeeds_iff (S : Storage) (d : Db) (s : option SessionUser.t)
    (reqBody : LoginBody.t) :
  let o := post_api_auth_login S d s reqBody in
  db o = d
  /\ ((exists data user,
         loginSchema_parse reqBody = Some data
         /\ getUserByReferenceNumber S d (Login.referenceNumber data) = Some user
         /\ User.name user = Login.name data
         /\ response o = mkResponse 200 (JSession (sessionOf user))
         /\ session o = Some (sessionOf user))
      \/ ((forall data user,
             loginSchema_parse reqBody = Some data ->
             getUserByReferenceNumber S d (Login.referenceNumber data) = Some user ->
             User.name user <> Login.name data)
          /\ session o = s
          /\ (response o = mkResponse 400 JZodError
              \/ response o = mkResponse 401 (JMessage "Invalid credentials")))).
Proof.
  unfold post_api_auth_login, reply.
  destruct (loginSchema_parse reqBody) as [data |] eqn:Hparse.
  - destruct (getUserByReferenceNumber S d (Login.referenceNumber data)) as [user |] eqn:Hfound.
    + destruct (String.eqb (User.name user) (Login.name data)) eqn:Hname; simpl.
      * split; [reflexivity |]. left. exists data, user.
        apply String.eqb_eq in Hname. repeat split; assumption.
      * split; [reflexivity |]. right. split; [| split; [reflexivity | right; reflexivity]].
        intros data' user' Hd Hu. inversion Hd; subst data'.
        rewrite Hfound in Hu. inversion Hu; subst user'.
        apply String.eqb_neq. exact Hname.
    + simpl. split; [reflexivity |]. right.
      split; [| split; [reflexivity | right; reflexivity]].
      intros data' user' Hd Hu. inversion Hd; subst data'.
      rewrite Hfound in Hu. discriminate.
  - simpl. split; [reflexivity |]. right.
    split; [| split; [reflexivity | left; reflexivity]].
    intros data' user' Hd. discriminate.
Qed.

(** The shipped store knows one pair of credentials: a login is answered
    200 for the name "admin" with the reference number "ARSC2025" and for
    no other body. *)
Theorem shipped_store_credentials (d : Db) (s : option SessionUser.t)
    (reqBody : LoginBody.t) :
  status (response (post_api_auth_login storage d s reqBody)) = 200%Z
  <-> reqBody = LoginBody.mk (present "admin") (present "ARSC2025").
Proof.
  split.
  - unfold post_api_auth_login, reply.
    destruct reqBody as [[| | n] [| | r]]; simpl; try discriminate.
    destruct n as [| c n]; simpl; [discriminate |].
    destruct r as [| c' r]; simpl; [discriminate |].
    destruct (String.eqb (String c' r) "ARSC2025") eqn:Hr; simpl; [| discriminate].
    destruct (String.eqb "admin" (String c n)) eqn:Hn; simpl; [| discriminate].
    intros _. apply String.eqb_eq in Hr. apply String.eqb_eq in Hn.
    rewrite Hr, <- Hn. reflexivity.
  - intros ->. reflexivity.
Qed.

(** What [/api/auth/me] answers after a login that was answered 200 is the
    login's own answer; after a logout it answers 401. *)
Theorem me_after_login_and_logout (S : Storage) (d : Db) (s : option SessionUser.t)
    (reqBody : LoginBody.t) :
  let o := post_api_auth_login S d s reqBody in
  status (response o) = 200%Z ->
  response (get_api_auth_me (db o) (session o)) = response o
  /\ response (get_api_auth_me (db o) (session (post_api_auth_logout (db o) (session o))))
     = mkResponse 401 (JMessage "Not authenticated").
Proof.
  intros o. subst o. unfold post_api_auth_login, reply.
  destruct (loginSchema_parse reqBody) as [data |]; simpl; [| discriminate].
  destruct (getUserByReferenceNumber S d (Login.referenceNumber data)) as [user |];
    simpl; [| discriminate].
  destruct (negb (String.eqb (User.name user) (Login.name data))); simpl; [discriminate |].
  intros _. split; reflexivity.
Qed.

Lemma me_after_login_and_logout_witness :
  let o := post_api_auth_login tableStorage election None
             (LoginBody.mk (present "Ana") (present "R1")) in
  response (get_api_auth_me (db o) (session o)) = mkResponse 200 (JSession pupilSession)
  /\ response (get_api_auth_me (db o) (session (post_api_auth_logout (db o) (session o))))
     = mkResponse 401 (JMessage "Not authenticated").
Proof.
  apply (me_after_login_and_logout tableStorage election None
           (LoginBody.mk (present "Ana") (present "R1"))).
  reflexivity.
Defined.

(** ** Creating users in bulk *)


Lemma array_parse_none (bodies : list UserBody.t) (body : UserBody.t) :
  In body bodies ->
  insertUserSchema_parse body = None ->
  insertUserSchema_array_parse bodies = None.
Proof.
  induction bodies as [| b bodies IH]; simpl; [tauto |].
  intros [-> | Hin] Hbad.
  - rewrite Hbad. reflexivity.
  - rewrite (IH Hin Hbad). destruct (insertUserSchema_parse b); reflexivity.
Qed.

Lemma array_parse_app (l1 l2 : list UserBody.t) (d1 d2 : list InsertUser.t) :
  insertUserSchema_array_parse l1 = Some d1 ->
  insertUserSchema_array_parse l2 = Some d2 ->
  insertUserSchema_array_parse (l1 ++ l2) = Some (d1 ++ d2).
Proof.
  revert d1. induction l1 as [| b l1 IH]; intros d1; simpl.
  - intros H1 H2. inversion H1. exact H2.
  - destruct (insertUserSchema_parse b) as [data |]; [| discriminate].
    destruct (insertUserSchema_array_parse l1) as [d1' |]; [| discriminate].
    intros H1 H2. inversion H1. rewrite (IH d1' eq_refl H2). reflexivity.
Qed.

(** What the loop has pushed so far stays, in place. *)
Lemma bulkLoop_results (S : Storage) (usersData : list InsertUser.t) :
  forall (d : Db) (results : list BulkResult),
    fst (bulkLoop S d usersData results)
    = results ++ fst (bulkLoop S d usersData []).
Proof.
  induction usersData as [| userData rest IH]; intros d results; simpl.
  - rewrite app_nil_r. reflexivity.
  - destruct (getUserByReferenceNumber S d (InsertUser.referenceNumber userData)).
    + rewrite IH. rewrite (IH d [_]). rewrite app_assoc. reflexivity.
    + destruct (createUser S d userData) as [newUser d'].
      rewrite IH. rewrite (IH d' [_]). rewrite app_assoc. reflexivity.
Qed.

Lemma bulkLoop_db (S : Storage) (usersData : list InsertUser.t) :
  forall (d : Db) (results : list BulkResult),
    snd (bulkLoop S d usersData results) = snd (bulkLoop S d usersData []).
Proof.
  induction usersData as [| userData rest IH]; intros d results; simpl.
  - reflexivity.
  - destruct (getUserByReferenceNumber S d (InsertUser.referenceNumber userData)).
    + rewrite IH. symmetry. apply IH.
    + destruct (createUser S d userData) as [newUser d'].
      rewrite IH. symmetry. apply IH.
Qed.


Lemma bulkLoop_app (S : Storage) (l1 l2 : list InsertUser.t) :
  forall d : Db,
    snd (bulkLoop S d (l1 ++ l2) []) = snd (bulkLoop S (snd (bulkLoop S d l1 [])) l2 []).
Proof.
  induction l1 as [| userData rest IH]; intros d; simpl; [reflexivity |].
  destruct (getUserByReferenceNumber S d (InsertUser.referenceNumber userData)).
  - rewrite bulkLoop_db, IH. rewrite (bulkLoop_db S rest d [_]). reflexivity.
  - destruct (createUser S d userData) as [newUser d'].
    rewrite bulkLoop_db, IH. rewrite (bulkLoop_db S rest d' [_]). reflexivity.
Qed.

(** The results of a list are those of its first part, followed by those
    of the rest in the store the first part leaves. *)
Lemma bulkLoop_results_app (S : Storage) (l1 l2 : list InsertUser.t) :
  forall d : Db,
    fst (bulkLoop S d (l1 ++ l2) [])
    = fst (bulkLoop S d l1 []) ++ fst (bulkLoop S (snd (bulkLoop S d l1 [])) l2 []).
Proof.
  induction l1 as [| userData rest IH]; intros d; simpl; [reflexivity |].
  destruct (getUserByReferenceNumber S d (InsertUser.referenceNumber userData)).
  - rewrite bulkLoop_results, IH. rewrite (bulkLoop_results S rest d [_]).
    rewrite (bulkLoop_db S rest d [_]). rewrite app_assoc. reflexivity.
  - destruct (createUser S d userData) as [newUser d'].
    rewrite bulkLoop_results, IH. rewrite (bulkLoop_results S rest d' [_]).
    rewrite (bulkLoop_db S rest d' [_]). rewrite app_assoc. reflexivity.
Qed.






(** One element that fails [insertUserSchema] fails the whole bulk
    request: the answer is 400 and no user is created, not even those
    before the bad element. *)
Theorem bulk_rejects_whole_batch (S : Storage) (d : Db) (s : option SessionUser.t)
    (reqBody : list UserBody.t) (bad : UserBody.t) :
  notAdmin s = false ->
  In bad reqBody ->
  insertUserSchema_parse bad = None ->
  post_api_users_bulk S d s reqBody = mkOutcome (mkResponse 400 JZodError) s d.
Proof.
  intros Hadmin Hin Hbad. unfold post_api_users_bulk.
  rewrite Hadmin, (array_parse_none _ _ Hin Hbad). reflexivity.
Qed.

Lemma bulk_rejects_whole_batch_witness :
  post_api_users_bulk tableStorage election (Some adminSession)
    [UserBody.mk (present "Ben") (present "R2") missing missing missing;
     UserBody.mk (present "Cid") missing missing missing missing]
  = mkOutcome (mkResponse 400 JZodError) (Some adminSession) election.
Proof.
  apply (@bulk_rejects_whole_batch tableStorage election (Some adminSession)
           [UserBody.mk (present "Ben") (present "R2") missing missing missing;
            UserBody.mk (present "Cid") missing missing missing missing]
           (UserBody.mk (present "Cid") missing missing missing missing)).
  - reflexivity.
  - right. left. reflexivity.
  - reflexivity.
Defined.

(** A bulk request with one element leaves the database as the single
    creation of that element does, for every store and session. *)
Theorem bulk_of_one_as_single (S : Storage) (d : Db) (s : option SessionUser.t)
    (body : UserBody.t) :
  db (post_api_users_bulk S d s [body]) = db (post_api_users S d s body).
Proof.
  unfold post_api_users_bulk, post_api_users, reply.
  destruct (notAdmin s); [reflexivity |]. simpl.
  destruct (insertUserSchema_parse body) as [data |]; [| reflexivity]. simpl.
  destruct (getUserByReferenceNumber S d (InsertUser.referenceNumber data)); [reflexivity |].
  destruct (createUser S d data) as [newUser d']. reflexivity.
Qed.

(** A bulk request is its parts in turn: when both parts pass the schema,
    sending them as one request leaves the database as sending the first
    part and then the second does, and for an admin the results of the one
    request are the results of the first part followed by those of the
    second, sent to the store the first part has left. *)
Theorem bulk_of_append (S : Storage) (d : Db) (s : option SessionUser.t)
    (l1 l2 : list UserBody.t) (d1 d2 : list InsertUser.t) :
  insertUserSchema_array_parse l1 = Some d1 ->
  insertUserSchema_array_parse l2 = Some d2 ->
  let first := post_api_users_bulk S d s l1 in
  let second := post_api_users_bulk S (db first) s l2 in
  let whole := post_api_users_bulk S d s (l1 ++ l2) in
  db whole = db second
  /\ (notAdmin s = false ->
      exists r1 r2,
        response first = mkResponse 201 (JBulk r1)
        /\ response second = mkResponse 201 (JBulk r2)
        /\ response whole = mkResponse 201 (JBulk (r1 ++ r2))).
Proof.
  intros H1 H2. cbv zeta. unfold post_api_users_bulk, reply.
  destruct (notAdmin s); [split; [reflexivity | discriminate] |].
  rewrite (array_parse_app _ _ H1 H2), H1.
  pose proof (bulkLoop_app S d1 d2 d) as Hdb.
  pose proof (bulkLoop_results_app S d1 d2 d) as Hresults.
  destruct (bulkLoop S d (d1 ++ d2) []) as [r12 d12].
  destruct (bulkLoop S d d1 []) as [r1 d']. simpl in *. rewrite H2.
  destruct (bulkLoop S d' d2 []) as [r2 d'']. simpl in *.
  split; [exact Hdb |].
  intros _. exists r1, r2. rewrite Hresults. repeat split.
Qed.

(** The user "R2" created by the first part is the reason the second part
    fails its element, in one request as in two. *)
Lemma bulk_of_append_witness :
  let first := post_api_users_bulk tableStorage election (Some adminSession)
                 [UserBody.mk (present "Ben") (present "R2") missing missing missing] in
  let second := post_api_users_bulk tableStorage (db first) (Some adminSession)
                  [UserBody.mk (present "Cid") (present "R2") missing missing missing] in
  let whole := post_api_users_bulk tableStorage election (Some adminSession)
                 ([UserBody.mk (present "Ben") (present "R2") missing missing missing]
                  ++ [UserBody.mk (present "Cid") (present "R2") missing missing missing]) in
  db whole = db second
  /\ response first = mkResponse 201 (JBulk [BulkCreated 3 "Ben" "R2"])
  /\ response second = mkResponse 201 (JBulk [BulkExists "R2"])
  /\ response whole = mkResponse 201 (JBulk [BulkCreated 3 "Ben" "R2"; BulkExists "R2"]).
Proof.
  cbv zeta.
  destruct (@bulk_of_append tableStorage election (Some adminSession)
              [UserBody.mk (present "Ben") (present "R2") missing missing missing]
              [UserBody.mk (present "Cid") (present "R2") missing missing missing]
              [InsertUser.mk "Ben" "R2" None None None]
              [InsertUser.mk "Cid" "R2" None None None]
              eq_refl eq_refl) as [Hdb Hresults].
  destruct (Hresults eq_refl) as (r1 & r2 & Hfirst & Hsecond & Hwhole).
  split; [exact Hdb |].
  split; [reflexivity |]. split; [reflexivity |].
  assert (H1 : [BulkCreated 3 "Ben" "R2"] = r1) by (injection Hfirst as H; exact H).
  assert (H2 : [BulkExists "R2"] = r2) by (injection Hsecond as H; exact H).
  etransitivity; [exact Hwhole |].
  rewrite <- H1, <- H2. reflexivity.
Defined.

(** ** Updating a user *)

(** An admin's update with a body that passes the partial schema is
    answered 409 exactly when it carries a non-empty reference number that
    the store finds for a user with another id. A user's own reference
    number passes, and so does the empty string, which is not looked up at
    all. When the answer is 409 nothing is written. *)
Theorem update_conflict_iff (S : Storage) (d : Db) (user : SessionUser.t) (id : Z)
    (reqBody : UserBody.t) (data : PartialUser.t) :
  SessionUser.isAdmin user = true ->
  insertUserSchema_partial_parse reqBody = Some data ->
  let o := put_api_users S d (Some user) (Some id) reqBody in
  (status (response o) = 409%Z
   <-> exists referenceNumber existingUser,
         PartialUser.referenceNumber data = Some referenceNumber
         /\ referenceNumber <> ""
         /\ getUserByReferenceNumber S d referenceNumber = Some existingUser
         /\ User.id existingUser <> id)
  /\ (status (response o) = 409%Z -> db o = d).
Proof.
  intros Hadmin Hparse. unfold put_api_users, notAdmin, reply.
  rewrite Hadmin, Hparse. simpl.
  destruct (PartialUser.referenceNumber data) as [[| c r] |] eqn:Href; simpl.
  - split.
    + split.
      * destruct (updateUser S d id data) as [[u |] d']; simpl; discriminate.
      * intros (r & e & Hr & Hne & _). inversion Hr. subst r. contradiction.
    + destruct (updateUser S d id data) as [[u |] d']; simpl; discriminate.
  - destruct (getUserByReferenceNumber S d (String c r)) as [existingUser |] eqn:Hfound.
    + destruct (User.id existingUser =? id)%Z eqn:Hid; simpl.
      * split.
        -- split.
           ++ destruct (updateUser S d id data) as [[u |] d']; simpl; discriminate.
           ++ intros (r' & e & Hr & _ & He & Hne). inversion Hr. subst r'.
              rewrite Hfound in He. inversion He. subst e.
              apply Z.eqb_eq in Hid. contradiction.
        -- destruct (updateUser S d id data) as [[u |] d']; simpl; discriminate.
      * split; [| reflexivity]. split; [| reflexivity].
        intros _. exists (String c r), existingUser.
        apply Z.eqb_neq in Hid. repeat split; try assumption. discriminate.
    + split.
      * split.
        -- destruct (updateUser S d id data) as [[u |] d']; simpl; discriminate.
        -- intros (r' & e & Hr & _ & He & _). inversion Hr. subst r'.
           rewrite Hfound in He. discriminate.
      * destruct (updateUser S d id data) as [[u |] d']; simpl; discriminate.
  - split.
    + split.
      * destruct (updateUser S d id data) as [[u |] d']; simpl; discriminate.
      * intros (r & e & Hr & _). discriminate.
    + destruct (updateUser S d id data) as [[u |] d']; simpl; discriminate.
Qed.

(** The admin gives user 1 the pupil's reference number: 409. *)
Lemma update_conflict_iff_witness :
  let o := put_api_users tableStorage election (Some adminSession) (Some 1%Z)
             (UserBody.mk missing (present "R1") missing missing missing) in
  (status (response o) = 409%Z
   <-> exists referenceNumber existingUser,
         Some "R1" = Some referenceNumber
         /\ referenceNumber <> ""
         /\ getUserByReferenceNumber tableStorage election referenceNumber = Some existingUser
         /\ User.id existingUser <> 1%Z)
  /\ (status (response o) = 409%Z -> db o = election).
Proof.
  apply (@update_conflict_iff tableStorage election adminSession 1%Z
           (UserBody.mk missing (present "R1") missing missing missing)
           (PartialUser.mk None (Some "R1") None None None));
    reflexivity.
Defined.

(** ** Choosing a school level *)

(** The school level route accepts a body exactly when its school level is
    one of the values of [SCHOOL_LEVELS] and its grade is one of
    [GRADE_LEVELS]. The two are not checked against each other: the grade
    need not be one of [getGradesBySchoolLevel] of the level. *)
Theorem select_level_schema_accepts (reqBody : LevelBody.t) :
  (schoolLevelSelectionSchema_parse reqBody <> None
   <-> exists l g,
         reqBody = LevelBody.mk (present l) (present g)
         /\ In l (map SchoolLevel.value SCHOOL_LEVELS)
         /\ In g GRADE_LEVELS)
  /\ exists l g,
       schoolLevelSelectionSchema_parse (LevelBody.mk (present l) (present g))
       = Some (LevelSelection.mk l g)
       /\ ~ In g (getGradesBySchoolLevel l).
Proof.
  split.
  - unfold schoolLevelSelectionSchema_parse, schoolLevelEnum.
    destruct reqBody as [[| | l] [| | g]]; simpl;
      try (split; [intros H; contradiction H; reflexivity
                  | intros (l' & g' & H & _); discriminate]).
    split.
    + destruct (String.eqb l "elementary") eqn:H1;
        [| destruct (String.eqb l "juniorHigh") eqn:H2;
           [| destruct (String.eqb l "seniorHigh") eqn:H3]]; simpl;
        try (destruct (3 <=? g)%Z eqn:Hlo; simpl;
             [destruct (g <=? 12)%Z eqn:Hhi; simpl |]);
        intros H; try (contradiction H; reflexivity);
        exists l, g; (split; [reflexivity |]);
        apply Z.leb_le in Hlo; apply Z.leb_le in Hhi;
        (split;
         [ first [ apply String.eqb_eq in H1 | apply String.eqb_eq in H2
                 | apply String.eqb_eq in H3 ]; subst l; simpl; tauto
         | assert (g = 3 \/ g = 4 \/ g = 5 \/ g = 6 \/ g = 7 \/ g = 8 \/ g = 9
                   \/ g = 10 \/ g = 11 \/ g = 12)%Z as Hg by lia;
           simpl; intuition auto ]).
    + intros (l' & g' & Hbody & Hl & Hg). inversion Hbody. subst l' g'.
      simpl in Hl, Hg.
      assert (String.eqb l "elementary" || String.eqb l "juniorHigh"
              || String.eqb l "seniorHigh" = true) as ->.
      { destruct Hl as [<- | [<- | [<- | []]]]; reflexivity. }
      assert ((3 <=? g)%Z = true) as -> by (apply Z.leb_le; lia).
      assert ((g <=? 12)%Z = true) as -> by (apply Z.leb_le; lia).
      simpl. discriminate.
  - exists "elementary", 12%Z. split; [reflexivity |].
    simpl. intros H. repeat (destruct H as [H | H]; [discriminate |]). exact H.
Qed.

(** A selection is stored first and put into the session second: when the
    store does not find the session's user the answer is 404 and the
    session keeps its old level and grade. When it does, the session takes
    the level and grade of the request and keeps its user id, name, admin
    flag and has-voted flag. *)
Theorem select_level_session (S : Storage) (d : Db) (user : SessionUser.t)
    (reqBody : LevelBody.t) (data : LevelSelection.t) :
  schoolLevelSelectionSchema_parse reqBody = Some data ->
  let o := post_api_students_select_level S d (Some user) reqBody in
  let stored :=
    fst (updateUser S d (SessionUser.id user)
           (PartialUser.mk None None None (Some (LevelSelection.schoolLevel data))
              (Some (LevelSelection.gradeLevel data)))) in
  (stored = None /\ levelStatus o = 404%Z /\ levelSession o = Some user)
  \/ (stored <> None
      /\ levelStatus o = 200%Z
      /\ exists su,
           levelSession o = Some su
           /\ SessionUser.schoolLevel su = Some (LevelSelection.schoolLevel data)
           /\ SessionUser.gradeLevel su = Some (LevelSelection.gradeLevel data)
           /\ SessionUser.id su = SessionUser.id user
           /\ SessionUser.name su = SessionUser.name user
           /\ SessionUser.isAdmin su = SessionUser.isAdmin user
           /\ SessionUser.hasVoted su = SessionUser.hasVoted user).
Proof.
  intros Hparse. unfold post_api_students_select_level. rewrite Hparse.
  destruct (updateUser S d _ _) as [[u |] d']; simpl.
  - right. split; [discriminate |]. split; [reflexivity |].
    eexists. repeat split.
  - left. repeat split.
Qed.

Lemma select_level_session_witness :
  let o := post_api_students_select_level tableStorage election (Some pupilSession)
             (LevelBody.mk (present "seniorHigh") (present 3%Z)) in
  let stored :=
    fst (updateUser tableStorage election 2
           (PartialUser.mk None None None (Some "seniorHigh") (Some 3%Z))) in
  (stored = None /\ levelStatus o = 404%Z /\ levelSession o = Some pupilSession)
  \/ (stored <> None
      /\ levelStatus o = 200%Z
      /\ exists su,
           levelSession o = Some su
           /\ SessionUser.schoolLevel su = Some "seniorHigh"
           /\ SessionUser.gradeLevel su = Some 3%Z
           /\ SessionUser.id su = 2%Z
           /\ SessionUser.name su = "Ana"
           /\ SessionUser.isAdmin su = false
           /\ SessionUser.hasVoted su = false).
Proof.
  apply (@select_level_session tableStorage election pupilSession
           (LevelBody.mk (present "seniorHigh") (present 3%Z))
           (LevelSelection.mk "seniorHigh" 3%Z)).
  reflexivity.
Defined.

(** With the shipped store no school level is ever chosen: the route
    answers 401, 400 or 404, and the session and the database stay as they
    were. *)
Theorem shipped_store_selects_no_level (d : Db) (s : option SessionUser.t)
    (reqBody : LevelBody.t) :
  let o := post_api_students_select_level storage d s reqBody in
  levelSession o = s
  /\ levelDb o = d
  /\ (levelStatus o = 401%Z \/ levelStatus o = 400%Z \/ levelStatus o = 404%Z).
Proof.
  unfold post_api_students_select_level.
  destruct s as [user |]; [| simpl; tauto].
  destruct (schoolLevelSelectionSchema_parse reqBody); simpl; tauto.
Qed.

(* ------------------------------------------------------------------ *)
(** * More of the statistics report *)

Lemma filter_length_le {A : Type} (p q : A -> bool) (l : list A) :
  (forall x, p x = true -> q x = true) ->
  List.length (filter p l) <= List.length (filter q l).
Proof.
  intros Hpq. induction l as [| x l IH]; simpl; [lia |].
  destruct (p x) eqn:Hp.
  - rewrite (Hpq x Hp). simpl. lia.
  - destruct (q x); simpl; lia.
Qed.

Lemma level_accounting (us : list User.t) :
  List.length (filter (fun u => negb (User.isAdmin u) && isLevel (User.schoolLevel u) "elementary") us)
  + (List.length (filter (fun u => negb (User.isAdmin u) && isLevel (User.schoolLevel u) "juniorHigh") us)
     + (List.length (filter (fun u => negb (User.isAdmin u) && isLevel (User.schoolLevel u) "seniorHigh") us)
        + 0))
  + countIf withoutLevel us
  = totalStudents us.
Proof.
  unfold totalStudents, withoutLevel, schoolLevels.
  induction us as [| u us IH]; simpl; [reflexivity |].
  simpl in IH.
  destruct (User.isAdmin u); simpl; [exact IH |].
  destruct (User.schoolLevel u) as [l |]; simpl; [| lia].
  destruct (String.eqb l "elementary") eqn:H1.
  - apply String.eqb_eq in H1. subst l.
    change (String.eqb "elementary" "juniorHigh") with false.
    change (String.eqb "elementary" "seniorHigh") with false.
    simpl. lia.
  - destruct (String.eqb l "juniorHigh") eqn:H2.
    + apply String.eqb_eq in H2. subst l.
      change (String.eqb "juniorHigh" "seniorHigh") with false.
      simpl. lia.
    + destruct (String.eqb l "seniorHigh"); simpl; lia.
Qed.

(** The counts of the report add up. No more students have voted than
    there are, in the school and in each level; and the students of the
    three levels together with the non-admin users who have no level, or
    another one, are all the students: such users count for the school's
    participation rate and for no level's. *)
Theorem report_counts_add_up (users : list User.t) :
  votedStudents users <= totalStudents users
  /\ Forall (fun e => SchoolLevelVotes.votedStudents e <= SchoolLevelVotes.totalStudents e)
       (votesBySchoolLevel users)
  /\ list_sum (map SchoolLevelVotes.totalStudents (votesBySchoolLevel users))
     + countIf withoutLevel users
     = totalStudents users.
Proof.
  split; [| split].
  - apply filter_length_le. intros u H. apply andb_prop in H. tauto.
  - unfold votesBySchoolLevel. apply Forall_forall. intros e He.
    apply in_map_iff in He. destruct He as (level & <- & _). simpl.
    induction (filter _ users) as [| u l IH]; simpl; [lia |].
    destruct (User.hasVoted u); simpl; lia.
  - unfold votesBySchoolLevel, schoolLevels. simpl. apply level_accounting.
Qed.

(** Where there is no non-admin user, every percentage of the report is
    the number 0: the participation rate, each position's, each level's
    and each candidate's, whatever the vote counts are. *)
Theorem report_without_students (voteCounts : list VoteCount.t)
    (positions : list Position.t) (users : list User.t) (candidates : list Candidate.t) :
  totalStudents users = 0 ->
  let report := voteStats voteCounts positions users candidates in
  Summary.participationRate (Stats.summary report) = 0%float
  /\ Forall (fun e => PositionVotes.percentage e = 0%float) (Stats.votesByPosition report)
  /\ Forall (fun e => SchoolLevelVotes.percentage e = 0%float) (Stats.votesBySchoolLevel report)
  /\ Forall (fun pr =>
               Forall (fun cr => CandidateVotes.percentage cr = 0%float)
                 (PositionCandidates.candidates pr))
       (Stats.votesByCandidateAndPosition report).
Proof.
  intros Hnone. simpl. repeat split.
  - unfold participationRate. rewrite Hnone. reflexivity.
  - unfold votesByPosition. apply Forall_forall. intros e He.
    apply in_map_iff in He. destruct He as (p & <- & _). simpl.
    rewrite Hnone. reflexivity.
  - unfold votesBySchoolLevel. apply Forall_forall. intros e He.
    apply in_map_iff in He. destruct He as (level & <- & _). simpl.
    assert (List.length
              (filter (fun u => negb (User.isAdmin u) && isLevel (User.schoolLevel u) level)
                 users) = 0) as ->.
    { pose proof (filter_length_le
                    (fun u => negb (User.isAdmin u) && isLevel (User.schoolLevel u) level)
                    (fun u => negb (User.isAdmin u)) users) as Hle.
      unfold totalStudents in Hnone. rewrite Hnone in Hle.
      assert (forall x : User.t,
                 negb (User.isAdmin x) && isLevel (User.schoolLevel x) level = true ->
                 negb (User.isAdmin x) = true) as Himp.
      { intros x H. apply andb_prop in H. tauto. }
      specialize (Hle Himp). lia. }
    reflexivity.
  - unfold votesByCandidateAndPosition. apply Forall_forall. intros pr Hpr.
    apply in_map_iff in Hpr. destruct Hpr as (p & <- & _). simpl.
    apply Forall_forall. intros cr Hcr.
    apply in_map_iff in Hcr. destruct Hcr as (c & <- & _). simpl.
    rewrite Hnone. reflexivity.
Qed.

Lemma report_without_students_witness :
  let report := voteStats [VoteCount.mk 1 1 4] [president] [admin] [candidateA] in
  Summary.participationRate (Stats.summary report) = 0%float
  /\ Forall (fun e => PositionVotes.percentage e = 0%float) (Stats.votesByPosition report)
  /\ Forall (fun e => SchoolLevelVotes.percentage e = 0%float) (Stats.votesBySchoolLevel report)
  /\ Forall (fun pr =>
               Forall (fun cr => CandidateVotes.percentage cr = 0%float)
                 (PositionCandidates.candidates pr))
       (Stats.votesByCandidateAndPosition report).
Proof.
  apply (report_without_students [VoteCount.mk 1 1 4] [president] [admin] [candidateA]).
  reflexivity.
Defined.

(** ** A position's votes and its candidates' votes *)

Lemma fold_left_count (l : list VoteCount.t) (a : nat) :
  fold_left (fun sum vc => sum + VoteCount.count vc) l a
  = a + list_sum (map VoteCount.count l).
Proof.
  revert a. induction l as [| vc l IH]; intros a; simpl; [lia |].
  rewrite IH. lia.
Qed.

Lemma list_sum_ext {A : Type} (f g : A -> nat) (l : list A) :
  (forall x, In x l -> f x = g x) ->
  list_sum (map f l) = list_sum (map g l).
Proof.
  induction l as [| x l IH]; intros H; simpl; [reflexivity |].
  rewrite (H x (or_introl eq_refl)), IH; [reflexivity |].
  intros y Hy. apply H. right. exact Hy.
Qed.

Lemma list_sum_zero {A : Type} (l : list A) : list_sum (map (fun _ => 0) l) = 0.
Proof. induction l as [| x l IH]; simpl; [reflexivity | exact IH]. Qed.

Lemma NoDup_map_filter {A B : Type} (f : A -> B) (q : A -> bool) (l : list A) :
  NoDup (map f l) -> NoDup (map f (filter q l)).
Proof.
  induction l as [| x l IH]; simpl; intros H; [constructor |].
  inversion H as [| ? ? Hnot Hrest]; subst.
  destruct (q x); simpl; [| auto].
  constructor; [| auto].
  intros Hin. apply Hnot. apply in_map_iff in Hin. destruct Hin as (y & Hy & Hyin).
  apply in_map_iff. exists y. split; [exact Hy |].
  apply filter_In in Hyin. tauto.
Qed.

(** One candidate of the list has the id [k]: it takes [a], the others
    keep what they have. *)
Lemma list_sum_one (cs : list Candidate.t) (k : Z) (a : nat) (h : Candidate.t -> nat) :
  NoDup (map Candidate.id cs) ->
  (exists c0, In c0 cs /\ Candidate.id c0 = k) ->
  (forall c, In c cs -> Candidate.id c = k -> h c = 0) ->
  list_sum (map (fun c => if (k =? Candidate.id c)%Z then a else h c) cs)
  = a + list_sum (map h cs).
Proof.
  induction cs as [| c cs IH]; simpl; intros Hnodup (c0 & Hin & Hid) Hzero.
  - contradiction.
  - inversion Hnodup as [| ? ? Hnot Hrest]; subst.
    destruct (Candidate.id c0 =? Candidate.id c)%Z eqn:Hc.
    + apply Z.eqb_eq in Hc.
      rewrite (Hzero c (or_introl eq_refl) (eq_sym Hc)).
      rewrite (list_sum_ext _ h); [lia |].
      intros x Hx.
      destruct (Candidate.id c0 =? Candidate.id x)%Z eqn:Hx0; [| reflexivity].
      apply Z.eqb_eq in Hx0. exfalso. apply Hnot.
      apply in_map_iff. exists x. split; [congruence | exact Hx].
    + destruct Hin as [-> | Hin]; [rewrite Z.eqb_refl in Hc; discriminate |].
      rewrite IH; [lia | exact Hrest | exists c0; tauto |].
      intros x Hx. apply Hzero. right. exact Hx.
Qed.

Lemma position_votes_sum (voteCounts : list VoteCount.t) (position : Position.t)
    (cs : list Candidate.t) :
  NoDup (map countKey voteCounts) ->
  NoDup (map Candidate.id cs) ->
  (forall vc, In vc voteCounts ->
     VoteCount.positionId vc = Position.id position ->
     exists c, In c cs /\ Candidate.id c = VoteCount.candidateId vc) ->
  list_sum (map VoteCount.count
              (filter (fun vc => (VoteCount.positionId vc =? Position.id position)%Z)
                 voteCounts))
  = list_sum (map (voteCount voteCounts position) cs).
Proof.
  intros Hkeys Hids. induction voteCounts as [| vc rest IH]; intros Hcover.
  - simpl. unfold voteCount. simpl. rewrite list_sum_zero. reflexivity.
  - inversion Hkeys as [| ? ? Hnot Hrest]; subst.
    simpl. destruct (VoteCount.positionId vc =? Position.id position)%Z eqn:Hpos.
    + simpl. rewrite IH; [| exact Hrest | intros x Hx; apply Hcover; right; exact Hx].
      apply Z.eqb_eq in Hpos.
      rewrite <- (@list_sum_one cs (VoteCount.candidateId vc) (VoteCount.count vc)
                   (voteCount rest position) Hids).
      * apply list_sum_ext. intros c _. unfold voteCount. simpl.
        rewrite Hpos, Z.eqb_refl. simpl.
        destruct (VoteCount.candidateId vc =? Candidate.id c)%Z; reflexivity.
      * apply Hcover; [left; reflexivity | exact Hpos].
      * intros c _ Hc. unfold voteCount.
        destruct (find _ rest) as [x |] eqn:Hfind; [| reflexivity].
        apply find_some in Hfind. destruct Hfind as [Hx Hmatch].
        apply andb_prop in Hmatch. destruct Hmatch as [Hp Hcid].
        apply Z.eqb_eq in Hp. apply Z.eqb_eq in Hcid.
        exfalso. apply Hnot. apply in_map_iff. exists x. split; [| exact Hx].
        unfold countKey. congruence.
    + rewrite IH; [| exact Hrest | intros x Hx; apply Hcover; right; exact Hx].
      apply list_sum_ext. intros c _. unfold voteCount. simpl.
      rewrite Hpos. reflexivity.
Qed.

(** When [storage.getVoteCounts] gives one row for a position and a
    candidate, the candidates have distinct ids, and every row of a
    position is for one of its candidates, the votes the report gives a
    position are the sum of the votes it gives the candidates of that
    position. *)
Theorem position_votes_are_candidates_votes (voteCounts : list VoteCount.t)
    (positions : list Position.t) (users : list User.t) (candidates : list Candidate.t)
    (position : Position.t) :
  In position positions ->
  NoDup (map countKey voteCounts) ->
  NoDup (map Candidate.id candidates) ->
  (forall vc, In vc voteCounts ->
     VoteCount.positionId vc = Position.id position ->
     exists c, In c candidates
               /\ Candidate.id c = VoteCount.candidateId vc
               /\ Candidate.positionId c = Position.id position) ->
  exists pv pc,
    In pv (votesByPosition voteCounts positions users)
    /\ PositionVotes.positionId pv = Position.id position
    /\ In pc (votesByCandidateAndPosition voteCounts positions users candidates)
    /\ PositionCandidates.positionId pc = Position.id position
    /\ PositionVotes.votes pv
       = list_sum (map CandidateVotes.votes (PositionCandidates.candidates pc)).
Proof.
  intros Hposition Hkeys Hids Hcover.
  unfold votesByPosition, votesByCandidateAndPosition.
  eexists. eexists. split; [| split; [| split; [| split]]].
  - apply in_map_iff. exists position. split; [reflexivity | exact Hposition].
  - reflexivity.
  - apply in_map_iff. exists position. split; [reflexivity | exact Hposition].
  - reflexivity.
  - simpl. rewrite fold_left_count. simpl. rewrite map_map. simpl.
    apply position_votes_sum.
    + exact Hkeys.
    + apply NoDup_map_filter. exact Hids.
    + intros vc Hvc Hpos. destruct (Hcover vc Hvc Hpos) as (c & Hc & Hid & Hcp).
      exists c. split; [| exact Hid].
      apply filter_In. split; [exact Hc |]. apply Z.eqb_eq. exact Hcp.
Qed.

Lemma position_votes_are_candidates_votes_witness :
  exists pv pc,
    In pv (votesByPosition [VoteCount.mk 1 1 4; VoteCount.mk 1 2 3; VoteCount.mk 2 3 5]
             [president; prefect] tenPupils)
    /\ PositionVotes.positionId pv = Position.id president
    /\ In pc (votesByCandidateAndPosition
                [VoteCount.mk 1 1 4; VoteCount.mk 1 2 3; VoteCount.mk 2 3 5]
                [president; prefect] tenPupils [candidateA; candidateB; candidateC])
    /\ PositionCandidates.positionId pc = Position.id president
    /\ PositionVotes.votes pv
       = list_sum (map CandidateVotes.votes (PositionCandidates.candidates pc)).
Proof.
  apply (@position_votes_are_candidates_votes
           [VoteCount.mk 1 1 4; VoteCount.mk 1 2 3; VoteCount.mk 2 3 5]
           [president; prefect] tenPupils [candidateA; candidateB; candidateC] president).
  - left. reflexivity.
  - repeat constructor; simpl; intuition discriminate.
  - repeat constructor; simpl; intuition discriminate.
  - intros vc [<- | [<- | [<- | []]]] Hpos; try discriminate.
    + exists candidateA. simpl. tauto.
    + exists candidateB. simpl. tauto.
Defined.

(** Without the first of these conditions the two differ: of two rows for
    one candidate the position counts both and the candidate the first. *)
Example position_votes_of_repeated_rows :
  map PositionVotes.votes
    (votesByPosition [VoteCount.mk 1 1 4; VoteCount.mk 1 1 3] [president] tenPupils)
  = [7]
  /\ map (fun pc => map CandidateVotes.votes (PositionCandidates.candidates pc))
       (votesByCandidateAndPosition [VoteCount.mk 1 1 4; VoteCount.mk 1 1 3] [president]
          tenPupils [candidateA])
     = [[4]].
Proof. split; reflexivity. Qed.

(* ------------------------------------------------------------------ *)
(** * The pages of the client *)

(** ** Pages of ten *)

Lemma totalPages_bounds (n : nat) :
  (n = 0 /\ totalPages n = 0)
  \/ (0 < n /\ 1 <= totalPages n /\ (totalPages n - 1) * 10 < n <= totalPages n * 10).
Proof.
  unfold totalPages, itemsPerPage.
  pose proof (Nat.div_mod_eq n 10) as Hdiv.
  pose proof (Nat.mod_upper_bound n 10 ltac:(discriminate)) as Hmod.
  destruct (Nat.eqb (n mod 10) 0) eqn:Hzero.
  - apply Nat.eqb_eq in Hzero. destruct (n / 10) as [| q] eqn:Hq.
    + left. split; [lia | reflexivity].
    + right. lia.
  - apply Nat.eqb_neq in Hzero. right. lia.
Qed.

Lemma currentItems_length {A : Type} (l : list A) (p : nat) :
  List.length (currentItems l p) = Nat.min (p * 10) (List.length l) - (p * 10 - 10).
Proof.
  unfold currentItems, slice, indexOfFirstItem, indexOfLastItem, itemsPerPage.
  rewrite length_skipn, length_firstn. reflexivity.
Qed.

Lemma pages_up_to {A : Type} (l : list A) (m : nat) :
  List.concat (map (currentItems l) (seq 1 m)) = firstn (m * 10) l.
Proof.
  induction m as [| m IH].
  - reflexivity.
  - rewrite seq_S, map_app, concat_app, IH. simpl.
    rewrite app_nil_r.
    unfold currentItems, slice, indexOfFirstItem, indexOfLastItem, itemsPerPage.
    replace (firstn (m * 10) l) with (firstn (m * 10) (firstn (S m * 10) l)).
    + replace (S m * 10 - 10) with (m * 10) by lia. apply firstn_skipn.
    + rewrite firstn_firstn. f_equal. lia.
Qed.

(** The pages cut the list of students into consecutive pieces: pages 1
    to [totalPages], one after the other, are the list. A page after the
    last one is empty, though there may be students to show. *)
Theorem pages_cover_the_list {A : Type} (filteredUsers : list A) :
  List.concat (map (currentItems filteredUsers) (seq 1 (totalPages (List.length filteredUsers))))
  = filteredUsers
  /\ forall k : nat,
       currentItems filteredUsers (totalPages (List.length filteredUsers) + S k) = [].
Proof.
  destruct (totalPages_bounds (List.length filteredUsers)) as [[Hn Ht] | (Hn & Ht & Hlo & Hhi)].
  - split.
    + rewrite Ht. apply length_zero_iff_nil in Hn. rewrite Hn. reflexivity.
    + intros k. apply length_zero_iff_nil. rewrite currentItems_length. lia.
  - split.
    + rewrite pages_up_to. apply firstn_all2. exact Hhi.
    + intros k. apply length_zero_iff_nil. rewrite currentItems_length. lia.
Qed.

(** Every page from 1 to [totalPages] shows at least one student and at
    most ten, and as many as the line under the table says: from
    [indexOfFirstItem + 1] to [shownLast]. *)
Theorem page_is_never_empty {A : Type} (filteredUsers : list A) (currentPage : nat) :
  1 <= currentPage <= totalPages (List.length filteredUsers) ->
  1 <= List.length (currentItems filteredUsers currentPage) <= itemsPerPage
  /\ List.length (currentItems filteredUsers currentPage)
     = shownLast (List.length filteredUsers) currentPage - indexOfFirstItem currentPage.
Proof.
  intros Hpage. rewrite currentItems_length.
  unfold shownLast, indexOfFirstItem, indexOfLastItem, itemsPerPage.
  destruct (totalPages_bounds (List.length filteredUsers)) as [[Hn Ht] | (Hn & Ht & Hlo & Hhi)];
    [lia |].
  destruct (Nat.ltb_spec (List.length filteredUsers) (currentPage * 10)); lia.
Qed.

Lemma page_is_never_empty_witness :
  1 <= List.length (currentItems (seq 0 23) 3) <= itemsPerPage
  /\ List.length (currentItems (seq 0 23) 3)
     = shownLast (List.length (seq 0 23)) 3 - indexOfFirstItem 3.
Proof.
  apply (@page_is_never_empty nat (seq 0 23) 3). vm_compute. split; repeat constructor.
Defined.

(** ** The page buttons *)

Lemma in_pageButtons (totalPages currentPage n : Z) :
  In n (pageButtons totalPages currentPage)
  <-> exists index : Z,
        (0 <= index < Z.min totalPages 5)%Z /\ pageNumber totalPages currentPage index = n.
Proof.
  unfold pageButtons. rewrite in_map_iff. split.
  - intros (i & Hi & Hin). apply in_seq in Hin. exists (Z.of_nat i). split; [lia | exact Hi].
  - intros (index & Hrange & Hn). exists (Z.to_nat index). split.
    + rewrite Z2Nat.id by lia. exact Hn.
    + apply in_seq. lia.
Qed.

Lemma page_buttons_in_range_aux (totalPages currentPage : Z) :
  (1 <= currentPage <= totalPages)%Z ->
  forall n, In n (pageButtons totalPages currentPage) -> (1 <= n <= totalPages)%Z.
Proof.
  intros Hpage n Hn. apply in_pageButtons in Hn. destruct Hn as (index & Hrange & <-).
  unfold pageNumber.
  destruct (Z.leb_spec totalPages 5); [lia |].
  destruct (Z.leb_spec currentPage 3); [lia |].
  destruct (Z.geb_spec currentPage (totalPages - 2)); lia.
Qed.

(** On a page between 1 and the last, the page buttons (five at most)
    carry page numbers between 1 and the last page, and one of them is the
    current page. *)
Theorem page_buttons_in_range (totalPages currentPage : Z) :
  (1 <= currentPage <= totalPages)%Z ->
  List.length (pageButtons totalPages currentPage) = Z.to_nat (Z.min totalPages 5)
  /\ (forall n, In n (pageButtons totalPages currentPage) -> (1 <= n <= totalPages)%Z)
  /\ In currentPage (pageButtons totalPages currentPage).
Proof.
  intros Hpage. split; [| split].
  - unfold pageButtons. rewrite length_map, length_seq. reflexivity.
  - apply page_buttons_in_range_aux. exact Hpage.
  - apply in_pageButtons. unfold pageNumber.
    destruct (Z.leb_spec totalPages 5); [exists (currentPage - 1)%Z; lia |].
    destruct (Z.leb_spec currentPage 3); [exists (currentPage - 1)%Z; lia |].
    destruct (Z.geb_spec currentPage (totalPages - 2));
      [exists (currentPage - (totalPages - 4))%Z; lia | exists 2%Z; lia].
Qed.

Lemma page_buttons_in_range_witness :
  List.length (pageButtons 8 5) = 5
  /\ (forall n, In n (pageButtons 8 5) -> (1 <= n <= 8)%Z)
  /\ In 5%Z (pageButtons 8 5).
Proof.
  apply (@page_buttons_in_range 8 5). lia.
Defined.

(** Clicking through the pages never leaves them: from a page between 1
    and the last, every enabled control leads to a page between 1 and the
    last. *)
Theorem page_stays_in_range (totalPages currentPage next : Z) :
  (1 <= currentPage <= totalPages)%Z ->
  pageClick totalPages currentPage next ->
  (1 <= next <= totalPages)%Z.
Proof.
  intros Hpage Hclick. destruct Hclick as [Hprev | Hnext | n Hn].
  - lia.
  - lia.
  - apply (page_buttons_in_range_aux Hpage n Hn).
Qed.

Lemma page_stays_in_range_witness :
  pageClick 3 1 2 /\ (1 <= 2 <= 3)%Z.
Proof.
  assert (pageClick 3 1 2) as Hclick by (apply (@clickNext 3 1); discriminate).
  split; [exact Hclick |].
  apply (page_stays_in_range (totalPages := 3) (currentPage := 1) (next := 2)); [lia | exact Hclick].
Defined.

(** ** What the voting page offers *)

(** For a student with a school level and a grade, the voting page lists
    a candidate under a position exactly when the position is open to the
    student's level, the candidate is of that position, and the candidate
    is open to the student's level and grade: the check [eligible], which
    the vote route does not make. *)
Theorem offered_iff_eligible (user : SessionUser.t) (userRecord : User.t)
    (positions : list Position.t) (candidates : list Candidate.t)
    (position : Position.t) (candidate : Candidate.t) :
  SessionUser.schoolLevel user <> None ->
  SessionUser.gradeLevel user <> None ->
  User.schoolLevel userRecord = SessionUser.schoolLevel user ->
  User.gradeLevel userRecord = SessionUser.gradeLevel user ->
  (In position (filteredPositions (Some user) positions)
   /\ In candidate (getCandidatesByPosition (Some user) candidates (Position.id position)))
  <-> (In position positions
       /\ In candidate candidates
       /\ Candidate.positionId candidate = Position.id position
       /\ eligible userRecord position candidate = true).
Proof.
  intros Hlevel Hgrade Hl Hg.
  unfold filteredPositions, getCandidatesByPosition, filteredCandidates, eligible,
    levelOrEmpty, gradeOrZero, includes.
  rewrite Hl, Hg.
  destruct (SessionUser.schoolLevel user) as [l |]; [| contradiction].
  destruct (SessionUser.gradeLevel user) as [g |]; [| contradiction].
  rewrite !filter_In, !andb_true_iff, Z.eqb_eq. tauto.
Qed.

Lemma offered_iff_eligible_witness :
  (In president (filteredPositions (Some pupilSession) [president; prefect])
   /\ In candidateA
        (getCandidatesByPosition (Some pupilSession) [candidateA; candidateB; candidateC]
           (Position.id president)))
  <-> (In president [president; prefect]
       /\ In candidateA [candidateA; candidateB; candidateC]
       /\ Candidate.positionId candidateA = Position.id president
       /\ eligible pupil president candidateA = true).
Proof.
  apply (@offered_iff_eligible pupilSession pupil [president; prefect]
           [candidateA; candidateB; candidateC] president candidateA);
    try reflexivity; discriminate.
Defined.

(** ** The grades of a candidate *)

(** The form's table of grades is the one of the constants. *)
Lemma levelGrades_constants (level : string) :
  levelGrades level = getGradesBySchoolLevel level.
Proof.
  unfold levelGrades, getGradesBySchoolLevel, gradeOptions, SCHOOL_LEVELS. simpl.
  destruct (String.eqb "elementary" level); [reflexivity |].
  destruct (String.eqb "juniorHigh" level); [reflexivity |].
  destruct (String.eqb "seniorHigh" level); reflexivity.
Qed.

(** When the chosen levels of a candidate change, the candidate form
    keeps a ticked grade exactly when it is a grade of one of the chosen
    levels ([getGradesBySchoolLevel]); it adds none, and doing it again
    changes nothing. *)
Theorem kept_grades_have_a_level (watchSchoolLevels : list string) (currentGrades : list Z) :
  (forall grade,
     In grade (filteredGrades watchSchoolLevels currentGrades)
     <-> In grade currentGrades
         /\ exists level, In level watchSchoolLevels /\ In grade (getGradesBySchoolLevel level))
  /\ filteredGrades watchSchoolLevels (filteredGrades watchSchoolLevels currentGrades)
     = filteredGrades watchSchoolLevels currentGrades.
Proof.
  split.
  - intros grade. unfold filteredGrades, availableGrades.
    rewrite filter_In, existsb_exists. split.
    + intros (Hin & x & Hx & Heq). apply Z.eqb_eq in Heq. subst x.
      apply in_flat_map in Hx. destruct Hx as (level & Hlevel & Hgrade).
      rewrite levelGrades_constants in Hgrade. split; [exact Hin |]. exists level. tauto.
    + intros (Hin & level & Hlevel & Hgrade). split; [exact Hin |].
      exists grade. split; [| apply Z.eqb_refl].
      apply in_flat_map. exists level. rewrite levelGrades_constants. tauto.
  - unfold filteredGrades.
    induction currentGrades as [| g gs IH]; simpl; [reflexivity |].
    destruct (existsb (Z.eqb g) (availableGrades watchSchoolLevels)) eqn:Hg; simpl.
    + rewrite Hg, IH. reflexivity.
    + exact IH.
Qed.

(** ** Candidates by position *)

Lemma group_pushTo (acc : list (Z * list Candidate.t)) (k p : Z) (c : Candidate.t) :
  group (pushTo k c acc) p
  = if (k =? p)%Z
    then Some (match group acc p with Some l => l ++ [c] | None => [c] end)
    else group acc p.
Proof.
  unfold group. induction acc as [| [k' l] acc IH]; simpl.
  - destruct (k =? p)%Z; reflexivity.
  - destruct (k' =? k)%Z eqn:Hk; simpl.
    + apply Z.eqb_eq in Hk. subst k'.
      destruct (k =? p)%Z; reflexivity.
    + destruct (k' =? p)%Z eqn:Hp; simpl.
      * apply Z.eqb_eq in Hp. subst k'. rewrite Z.eqb_sym, Hk. reflexivity.
      * exact IH.
Qed.

Lemma group_fold (cs : list Candidate.t) (p : Z) :
  forall acc : list (Z * list Candidate.t),
    group (fold_left (fun acc c => pushTo (Candidate.positionId c) c acc) cs acc) p
    = match group acc p, filter (fun c => (Candidate.positionId c =? p)%Z) cs with
      | Some l, more => Some (l ++ more)
      | None, [] => None
      | None, more => Some more
      end.
Proof.
  induction cs as [| c cs IH]; intros acc; simpl.
  - destruct (group acc p); [rewrite app_nil_r |]; reflexivity.
  - rewrite IH, group_pushTo.
    destruct (Candidate.positionId c =? p)%Z.
    + destruct (group acc p) as [l |]; [rewrite <- app_assoc |]; reflexivity.
    + reflexivity.
Qed.

(** Grouping by position loses and invents nothing: the group of a
    position holds the candidates of that position, in the order of the
    list, and a position without a candidate has no group. *)
Theorem group_is_filter (candidates : list Candidate.t) (positionId : Z) :
  group (candidatesByPosition candidates) positionId
  = match filter (fun c => (Candidate.positionId c =? positionId)%Z) candidates with
    | [] => None
    | l => Some l
    end.
Proof.
  unfold candidatesByPosition. rewrite group_fold. reflexivity.
Qed.

(** ** The colour of a name *)

Lemma toInt32_range (x : Z) : (- 2 ^ 31 <= toInt32 x < 2 ^ 31)%Z.
Proof.
  unfold toInt32.
  pose proof (Z.mod_pos_bound (x + 2 ^ 31) (2 ^ 32) ltac:(reflexivity)). lia.
Qed.

Lemma hashStep_bound (hash code : Z) :
  (0 <= code < 65536)%Z ->
  (Z.abs (hashStep hash code) <= Z.abs hash + (2 ^ 31 + 65535))%Z.
Proof.
  intros Hcode. unfold hashStep, shiftLeft.
  pose proof (toInt32_range (Z.shiftl (toInt32 hash) 5)). lia.
Qed.

Lemma hash_bound (name : list Z) :
  Forall (fun code => (0 <= code < 65536)%Z) name ->
  forall hash : Z,
    (Z.abs (fold_left hashStep name hash)
     <= Z.abs hash + Z.of_nat (List.length name) * (2 ^ 31 + 65535))%Z.
Proof.
  induction 1 as [| code name Hcode _ IH]; intros hash.
  - simpl. lia.
  - cbn [fold_left List.length]. specialize (IH (hashStep hash code)).
    pose proof (hashStep_bound hash Hcode). lia.
Qed.

(** Every name has a colour of the palette: the index computed from the
    hash is never out of the array, also when the 32-bit shift has made
    the hash negative. And for a name of code units (0 to 65535) the hash
    stays within [length * (2^31 + 65535)], so below 2^53, where numbers
    are exact, for every name shorter than 2^21 characters. *)
Theorem every_name_has_a_colour (name : list Z) :
  Forall (fun code => (0 <= code < 65536)%Z) name ->
  (exists colour,
     getColorForName name = Some colour /\ In colour DEFAULT_AVATAR_COLORS)
  /\ (Z.abs (hashOfName name) <= Z.of_nat (List.length name) * (2 ^ 31 + 65535))%Z.
Proof.
  intros Hname. split.
  - unfold getColorForName.
    destruct (nth_error DEFAULT_AVATAR_COLORS _) as [colour |] eqn:Hnth.
    + exists colour. split; [reflexivity |]. eapply nth_error_In. exact Hnth.
    + exfalso. apply nth_error_None in Hnth.
      change (List.length DEFAULT_AVATAR_COLORS) with 15 in Hnth.
      change (Z.of_nat 15) with 15%Z in Hnth.
      pose proof (Z.mod_pos_bound (Z.abs (hashOfName name)) 15 ltac:(reflexivity)). lia.
  - pose proof (hash_bound Hname 0) as Hbound. simpl Z.abs in Hbound.
    unfold hashOfName. lia.
Qed.

Lemma every_name_has_a_colour_witness :
  (exists colour,
     getColorForName (codeUnits "Juan dela Cruz Santos") = Some colour
     /\ In colour DEFAULT_AVATAR_COLORS)
  /\ (Z.abs (hashOfName (codeUnits "Juan dela Cruz Santos"))
      <= Z.of_nat (List.length (codeUnits "Juan dela Cruz Santos")) * (2 ^ 31 + 65535))%Z.
Proof.
  apply (@every_name_has_a_colour (codeUnits "Juan dela Cruz Santos")).
  vm_compute. repeat constructor; discriminate.
Defined.

(** ** The text of a mass registration *)

Lemma trimEnd_step (c : Ascii.ascii) (s : string) :
  trimEnd (String c s)
  = match trimEnd s with
    | EmptyString => if isWhiteSpace c then EmptyString else String c EmptyString
    | t => String c t
    end.
Proof. reflexivity. Qed.

Lemma trimEnd_idempotent (s : string) : trimEnd (trimEnd s) = trimEnd s.
Proof.
  induction s as [| c s IH]; [reflexivity |].
  rewrite trimEnd_step.
  destruct (trimEnd s) as [| c' t] eqn:Ht.
  - destruct (isWhiteSpace c) eqn:Hc; [reflexivity |].
    rewrite trimEnd_step. simpl. rewrite Hc. reflexivity.
  - rewrite trimEnd_step, IH. reflexivity.
Qed.

Lemma trimStart_head (s : string) :
  trimStart s = EmptyString
  \/ exists c t, trimStart s = String c t /\ isWhiteSpace c = false.
Proof.
  induction s as [| c s IH]; simpl; [left; reflexivity |].
  destruct (isWhiteSpace c) eqn:Hc; [exact IH |].
  right. exists c, s. split; [reflexivity | exact Hc].
Qed.

Lemma trimEnd_head (c : Ascii.ascii) (s : string) :
  isWhiteSpace c = false -> exists t, trimEnd (String c s) = String c t.
Proof.
  intros Hc. rewrite trimEnd_step. destruct (trimEnd s); [rewrite Hc |]; eexists; reflexivity.
Qed.

Lemma trim_idempotent (s : string) : trim (trim s) = trim s.
Proof.
  unfold trim. destruct (trimStart_head s) as [-> | (c & t & -> & Hc)]; [reflexivity |].
  destruct (@trimEnd_head c t Hc) as (t' & Hend). rewrite Hend.
  cbn [trimStart]. rewrite Hc. rewrite <- Hend. apply trimEnd_idempotent.
Qed.

Lemma isEmpty_false (s : string) : isEmpty s = false -> s <> EmptyString.
Proof. destruct s; [discriminate |]. intros _. discriminate. Qed.

Lemma parseLines_invariant (lines : list string) :
  forall (index : nat) (data : list BulkEntry.t) (errors : list BulkError),
    Forall cleanEntry data ->
    Forall (fun e => 1 <= lineOf e <= index) errors ->
    let r := parseLines lines index data errors in
    Forall cleanEntry (fst r)
    /\ Forall (fun e => 1 <= lineOf e <= index + List.length lines) (snd r)
    /\ List.length (fst r) + List.length (snd r)
       = List.length data + List.length errors + countIf notBlank lines.
Proof.
  induction lines as [| line rest IH]; intros index data errors Hdata Herrors.
  - simpl. split; [exact Hdata |]. split; [| lia].
    eapply Forall_impl; [| exact Herrors]. simpl. intros e He. lia.
  - assert (Forall (fun e => 1 <= lineOf e <= S index) errors) as Herrors'.
    { eapply Forall_impl; [| exact Herrors]. simpl. intros e He. lia. }
    assert (forall e, lineOf e = index + 1 ->
              Forall (fun e => 1 <= lineOf e <= S index) (errors ++ [e])) as Hpush.
    { intros e He. apply Forall_app. split; [exact Herrors' |].
      constructor; [lia | constructor]. }
    cbn [parseLines countIf List.length]. unfold notBlank at 1.
    destruct (isEmpty (trim line)) eqn:Hblank; cbn [negb].
    + destruct (IH (S index) data errors Hdata Herrors') as (H1 & H2 & H3).
      split; [exact H1 |]. split; [| exact H3].
      eapply Forall_impl; [| exact H2]. simpl. intros e He. lia.
    + destruct (split comma line) as [| part0 [| part1 parts]].
      * destruct (IH (S index) data (errors ++ [InvalidFormat (index + 1)]) Hdata
                    (Hpush (InvalidFormat (index + 1)) eq_refl)) as (H1 & H2 & H3).
        split; [exact H1 |]. split.
        -- eapply Forall_impl; [| exact H2]. simpl. intros e He. lia.
        -- rewrite H3, length_app. simpl. lia.
      * destruct (IH (S index) data (errors ++ [InvalidFormat (index + 1)]) Hdata
                    (Hpush (InvalidFormat (index + 1)) eq_refl)) as (H1 & H2 & H3).
        split; [exact H1 |]. split.
        -- eapply Forall_impl; [| exact H2]. simpl. intros e He. lia.
        -- rewrite H3, length_app. simpl. lia.
      * cbv zeta.
        destruct (isEmpty (trim part0)) eqn:Hname.
        { destruct (IH (S index) data (errors ++ [NameRequired (index + 1)]) Hdata
                      (Hpush (NameRequired (index + 1)) eq_refl)) as (H1 & H2 & H3).
          split; [exact H1 |]. split.
          -- eapply Forall_impl; [| exact H2]. simpl. intros e He. lia.
          -- rewrite H3, length_app. simpl. lia. }
        destruct (isEmpty (trim part1)) eqn:Href.
        { destruct (IH (S index) data (errors ++ [ReferenceRequired (index + 1)]) Hdata
                      (Hpush (ReferenceRequired (index + 1)) eq_refl)) as (H1 & H2 & H3).
          split; [exact H1 |]. split.
          -- eapply Forall_impl; [| exact H2]. simpl. intros e He. lia.
          -- rewrite H3, length_app. simpl. lia. }
        assert (Forall cleanEntry (data ++ [BulkEntry.mk (trim part0) (trim part1)]))
          as Hdata'.
        { apply Forall_app. split; [exact Hdata |].
          constructor; [| constructor]. unfold cleanEntry. simpl.
          repeat split; auto using isEmpty_false, trim_idempotent. }
        destruct (IH (S index) _ errors Hdata' Herrors') as (H1 & H2 & H3).
        split; [exact H1 |]. split.
        -- eapply Forall_impl; [| exact H2]. simpl. intros e He. lia.
        -- rewrite H3, length_app. simpl. lia.
Qed.

(** Of the text of a mass registration, every line that is not blank
    gives one entry or one error, and no other line gives anything. Every
    entry has a name and a reference number that are not empty and have no
    white space at either end, whatever the line endings of the file; every
    error carries the number of a line of the text. *)
Theorem parsed_entries_are_clean (content : string) :
  let lines := split lineFeed content in
  let r := parseBulkUploadData content in
  Forall cleanEntry (fst r)
  /\ Forall (fun e => 1 <= lineOf e <= List.length lines) (snd r)
  /\ List.length (fst r) + List.length (snd r) = countIf notBlank lines.
Proof.
  unfold parseBulkUploadData.
  destruct (@parseLines_invariant (split lineFeed content) 0 [] [])
    as (H1 & H2 & H3); [constructor | constructor |].
  simpl in *. repeat split; assumption.
Qed.

(** ** The router *)

(** The router sends the browser to a place from which it sends it
    nowhere else: no redirect is followed by another. *)
Theorem redirect_settles (user : option SessionUser.t) (isLoading : bool)
    (location target : string) :
  redirect user isLoading location = Some target ->
  redirect user isLoading target = None.
Proof.
  unfold redirect. destruct isLoading; [discriminate |].
  destruct user as [u |]; unfold hasLevel, hasGrade, isAdminOf, isSome; cbn [negb andb].
  - destruct (truthyString (SessionUser.schoolLevel u));
      destruct (truthyNumber (SessionUser.gradeLevel u));
      destruct (SessionUser.isAdmin u); cbn [negb andb];
      repeat match goal with
        | |- context [String.eqb location ?x] => destruct (String.eqb location x)
        end;
      cbn [negb andb]; intros H; inversion H; reflexivity.
  - destruct (String.prefix "/admin" location); cbn [negb andb]; [discriminate |].
    destruct (String.eqb location "/"); cbn [negb andb]; [discriminate |].
    intros H. inversion H. reflexivity.
Qed.

Lemma redirect_settles_witness :
  redirect (Some pupilSession) false "/admin/students" = Some "/voting"
  /\ redirect (Some pupilSession) false "/voting" = None.
Proof.
  split; [reflexivity |].
  apply (@redirect_settles (Some pupilSession) false "/admin/students" "/voting").
  reflexivity.
Defined.

(** A student with a school level and a grade is sent to the voting page
    from every other place, and the guards of the admin pages and of the
    school level page show that student the not-found page. *)
Theorem student_is_kept_on_voting_page (u : SessionUser.t) (location : string) :
  SessionUser.isAdmin u = false ->
  truthyString (SessionUser.schoolLevel u) = true ->
  truthyNumber (SessionUser.gradeLevel u) = true ->
  location <> "/voting" ->
  redirect (Some u) false location = Some "/voting"
  /\ AdminRoute (Some u) false = NotFoundView
  /\ SchoolLevelRoute (Some u) false = NotFoundView
  /\ StudentRoute (Some u) false = ComponentView.
Proof.
  intros Hadmin Hlevel Hgrade Hloc.
  unfold redirect, AdminRoute, SchoolLevelRoute, StudentRoute, hasLevel, hasGrade,
    isAdminOf, isSome.
  rewrite Hadmin, Hlevel, Hgrade. cbn [negb andb].
  apply String.eqb_neq in Hloc. rewrite Hloc. repeat split.
Qed.

Lemma student_is_kept_on_voting_page_witness :
  redirect (Some pupilSession) false "/admin" = Some "/voting"
  /\ AdminRoute (Some pupilSession) false = NotFoundView
  /\ SchoolLevelRoute (Some pupilSession) false = NotFoundView
  /\ StudentRoute (Some pupilSession) false = ComponentView.
Proof.
  apply (@student_is_kept_on_voting_page pupilSession "/admin");
    try reflexivity.
  vm_compute. discriminate.
Defined.

(** A student with a school level and no grade, or a grade and no school
    level, has no page: the router sends that student nowhere, the voting
    page is shown and sends on to the school level page, and the guard of
    the school level page shows the not-found page. *)
Theorem half_set_student_has_no_page (u : SessionUser.t) :
  SessionUser.isAdmin u = false ->
  halfSet u = true ->
  (forall location, redirect (Some u) false location = None)
  /\ StudentRoute (Some u) false = ComponentView
  /\ votingPageRedirect (Some u) = Some "/school-level"
  /\ SchoolLevelRoute (Some u) false = NotFoundView.
Proof.
  intros Hadmin Hhalf. unfold halfSet in Hhalf.
  unfold redirect, StudentRoute, votingPageRedirect, SchoolLevelRoute, hasLevel, hasGrade,
    isAdminOf, isSome.
  rewrite Hadmin.
  destruct (truthyString (SessionUser.schoolLevel u));
    destruct (truthyNumber (SessionUser.gradeLevel u));
    try discriminate; cbn [negb andb orb]; repeat split.
Qed.

Lemma half_set_student_has_no_page_witness :
  (forall location,
     redirect (Some (SessionUser.mk 2 "Ana" false false (Some "elementary") None)) false
       location = None)
  /\ StudentRoute (Some (SessionUser.mk 2 "Ana" false false (Some "elementary") None)) false
     = ComponentView
  /\ votingPageRedirect (Some (SessionUser.mk 2 "Ana" false false (Some "elementary") None))
     = Some "/school-level"
  /\ SchoolLevelRoute (Some (SessionUser.mk 2 "Ana" false false (Some "elementary") None))
       false
     = NotFoundView.
Proof.
  apply (@half_set_student_has_no_page
           (SessionUser.mk 2 "Ana" false false (Some "elementary") None));
    reflexivity.
Defined.

(** ** School levels and grades *)

Lemma grades_of_level (l : string) :
  (l = "elementary" /\ getGradesBySchoolLevel l = [3; 4; 5; 6]%Z)
  \/ (l = "juniorHigh" /\ getGradesBySchoolLevel l = [7; 8; 9; 10]%Z)
  \/ (l = "seniorHigh" /\ getGradesBySchoolLevel l = [11; 12]%Z)
  \/ (~ In l (map SchoolLevel.value SCHOOL_LEVELS)
      /\ getGradesBySchoolLevel l = [] /\ getSchoolLevelLabel l = l).
Proof.
  unfold getGradesBySchoolLevel, getSchoolLevelLabel, SCHOOL_LEVELS. simpl.
  destruct (String.eqb "elementary" l) eqn:H1.
  { apply String.eqb_eq in H1. left. split; [symmetry; exact H1 | reflexivity]. }
  destruct (String.eqb "juniorHigh" l) eqn:H2.
  { apply String.eqb_eq in H2. right. left. split; [symmetry; exact H2 | reflexivity]. }
  destruct (String.eqb "seniorHigh" l) eqn:H3.
  { apply String.eqb_eq in H3. right. right. left.
    split; [symmetry; exact H3 | reflexivity]. }
  right. right. right. split; [| split; reflexivity].
  apply String.eqb_neq in H1. apply String.eqb_neq in H2. apply String.eqb_neq in H3.
  intros [H | [H | [H | []]]]; congruence.
Qed.

(** The school levels cut the grades into three: every grade of
    [GRADE_LEVELS] is a grade of a school level, and of one only; a
    school level has no other grades. A value that is no school level has
    no grades and is its own label. *)
Theorem levels_partition_the_grades :
  (forall grade,
     In grade GRADE_LEVELS <-> exists level, In grade (getGradesBySchoolLevel level))
  /\ (forall grade level1 level2,
        In grade (getGradesBySchoolLevel level1) ->
        In grade (getGradesBySchoolLevel level2) ->
        level1 = level2)
  /\ (forall value,
        ~ In value (map SchoolLevel.value SCHOOL_LEVELS) ->
        getGradesBySchoolLevel value = [] /\ getSchoolLevelLabel value = value).
Proof.
  split; [| split].
  - intros grade. split.
    + intros Hin. simpl in Hin.
      destruct Hin as [<- | [<- | [<- | [<- | [<- | [<- | [<- | [<- | [<- | [<- | []]]]]]]]]]];
        first [ exists "elementary"; simpl; tauto
              | exists "juniorHigh"; simpl; tauto
              | exists "seniorHigh"; simpl; tauto ].
    + intros (level & Hin).
      destruct (grades_of_level level) as [[_ H] | [[_ H] | [[_ H] | (_ & H & _)]]];
        rewrite H in Hin; simpl in *; tauto.
  - intros grade level1 level2 H1 H2.
    destruct (grades_of_level level1) as [[-> E1] | [[-> E1] | [[-> E1] | (_ & E1 & _)]]];
      destruct (grades_of_level level2) as [[-> E2] | [[-> E2] | [[-> E2] | (_ & E2 & _)]]];
      rewrite ?E1 in H1; rewrite ?E2 in H2; simpl in H1, H2; try reflexivity;
      exfalso; intuition (subst; discriminate).
  - intros value Hnot.
    destruct (grades_of_level value) as [[-> _] | [[-> _] | [[-> _] | (_ & H1 & H2)]]];
      try (exfalso; apply Hnot; simpl; tauto).
    split; assumption.
Qed.
